(** * HTMLText: a shallow embedding of [src/index.ts] and [src/index.js]

    The repository holds one class, [HTMLText], in two revisions: the
    TypeScript one ([index.ts]) and the earlier JavaScript one ([index.js]).
    The members the two revisions share verbatim (the [text], [style] and
    [resolution] accessors, [sanitiseText], [_onStyleChange] and the test at
    the head of [_render]) are embedded once; the members that differ
    ([updateText], [updateTexture], [destroy], the [width] and [height]
    accessors, the constructor) are embedded per revision in the modules
    [TS] and [JS].

    Conventions.
    - A JavaScript number is a binary64 floating-point number ([float]):
      [+], [-], [*] and [/] round to nearest-even, [===] on numbers is the
      IEEE comparison ([NaN] differs from itself, [-0] equals [0]).
      [canvas.width] and [canvas.height] are DOM [unsigned long]s, kept as
      integers ([Z]) and written through the conversion of the DOM.
    - A JavaScript string is a [string]; [===] on strings is [String.eqb].
    - A method is a computation in the monad [M]: it threads the [World] and
      either returns or throws (a [TypeError] on a [null] dereference), and
      the mutations made before a throw are kept.
    - What the browser decides (the bounding box of the styled content, the
      pixels an image decodes to) is an input of the call or event that
      consumes it.  What the host decides by a function of its own (the
      engine's [trimCanvas], [Sprite] and [BaseTexture]; whether the XML
      parser of index.js yields the [div]) is a member of the class [Pixi].
    - The assembly of the CSS text (index.ts 97-159, index.js 76-138) reads
      the style and writes nothing but the scratch node; it is carried as
      the style itself. *)

From Stdlib Require Import ZArith Floats.
From Stdlib Require Import Bool List String Ascii Lia.
Import ListNotations.

Local Open Scope string_scope.

(* ===================================================================== *)
(** * Strings and [sanitiseText] *)
(* ===================================================================== *)

Module Text.

(** Canonicalisation of a code unit under the [i] flag (without [u]): the
    ASCII letters [a]-[z] are compared as [A]-[Z]; every other unit is
    compared as itself. *)
Definition canonicalize (c : ascii) : ascii :=
  let n := nat_of_ascii c in
  if (97 <=? n)%nat && (n <=? 122)%nat then ascii_of_nat (n - 32) else c.

Definition ci_eqb (a b : ascii) : bool :=
  Ascii.eqb (canonicalize a) (canonicalize b).

(** [ci_prefix p s]: the literal pattern [p] matches at the start of [s],
    ignoring case. *)
Fixpoint ci_prefix (p s : string) : bool :=
  match p, s with
  | EmptyString, _ => true
  | String _ _, EmptyString => false
  | String a p', String b s' => ci_eqb a b && ci_prefix p' s'
  end.

(** [String.prototype.replace] with a global, case-insensitive regular
    expression made of the literal [pat]: the matches are found left to
    right, each search resuming after the previous match.  [skip] counts the
    units of the current match still to be consumed. *)
Fixpoint replace_from (pat rep : string) (skip : nat) (s : string) : string :=
  match s with
  | EmptyString => EmptyString
  | String c s' =>
      match skip with
      | S k => replace_from pat rep k s'
      | O =>
          if ci_prefix pat s
          then rep ++ replace_from pat rep (String.length pat - 1) s'
          else String c (replace_from pat rep 0 s')
      end
  end.

Definition replace (pat rep s : string) : string := replace_from pat rep 0 s.

(** [sanitiseText(text)], index.ts 463-472 and index.js 426-433. *)
Definition sanitiseText (text : string) : string :=
  replace "&nbsp;" "&#160;"
    (replace "<hr>" "<hr/>"
       (replace "<br>" "<br/>" text)).

(** The reading of the specification: one pass over the text in which every
    occurrence of one of the three substrings is replaced and every other
    unit is copied. *)
Fixpoint self_closed_from (skip : nat) (s : string) : string :=
  match s with
  | EmptyString => EmptyString
  | String c s' =>
      match skip with
      | S k => self_closed_from k s'
      | O =>
          if ci_prefix "<br>" s then "<br/>" ++ self_closed_from 3 s'
          else if ci_prefix "<hr>" s then "<hr/>" ++ self_closed_from 3 s'
          else if ci_prefix "&nbsp;" s then "&#160;" ++ self_closed_from 5 s'
          else String c (self_closed_from 0 s')
      end
  end.

Definition self_closed (s : string) : string := self_closed_from 0 s.

(** [occurs p s]: [p] matches, ignoring case, somewhere in [s]. *)
Fixpoint occurs (p s : string) : bool :=
  ci_prefix p s ||
  match s with
  | EmptyString => false
  | String _ s' => occurs p s'
  end.

Fixpoint drop (k : nat) (s : string) : string :=
  match k, s with
  | O, _ => s
  | S _, EmptyString => EmptyString
  | S k', String _ s' => drop k' s'
  end.

End Text.

(* ===================================================================== *)
(** * Numbers and host objects *)
(* ===================================================================== *)

Local Open Scope float_scope.

(** A JavaScript number. *)
Definition number : Type := float.

Module Number.

(** The number nearest to an integer (ties to even), as a numeric literal
    or an integer-valued DOM property read from script gives it. *)
Definition of_Z (z : Z) : number :=
  SF2Prim (binary_normalize prec emax z 0 false).

(** The integer a finite number truncates to, and [0] for [NaN] and the
    infinities: the first steps of the conversion of a number to a DOM
    integer. *)
Definition integer_part (x : number) : Z :=
  match Prim2SF x with
  | S754_finite s m e =>
      let v := if (0 <=? e)%Z then (Z.pos m * 2 ^ e)%Z
               else (Z.pos m / 2 ^ (- e))%Z in
      if s then (- v)%Z else v
  | _ => 0%Z
  end.

(** The truthiness of a number: [0], [-0] and [NaN] are falsy. *)
Definition truthy (x : number) : bool := negb ((x =? 0) || is_nan x).

End Number.

Module Math.

(** [Math.abs(x)] *)
Definition abs (x : number) : number := PrimFloat.abs x.

(** [Math.ceil(x)]: the least integer not below [x]; [NaN], the infinities,
    the zeros and the integers are returned as they are, and a negative
    number above [-1] gives [-0]. *)
Definition ceil (x : number) : number :=
  match Prim2SF x with
  | S754_finite s m e =>
      if (0 <=? e)%Z then x
      else
        let q := (Z.pos m / 2 ^ (- e))%Z in
        let r := (Z.pos m mod 2 ^ (- e))%Z in
        if s then - Number.of_Z q
        else Number.of_Z (if (r =? 0)%Z then q else (q + 1)%Z)
  | _ => x
  end.

(** [Math.max(a, b)]: [NaN] if either is, and [0] is above [-0]. *)
Definition max (a b : number) : number :=
  if is_nan a || is_nan b then nan
  else if a <? b then b
  else if b <? a then a
  else if get_sign a then b else a.

End Math.

(** [a === b] and [a !== b] on numbers. *)
Definition strict_eq (a b : number) : bool := (a =? b).

(** [utils.sign(n)] of [@pixi/utils]:
    [if (n === 0) return 0; return n < 0 ? -1 : 1]. *)
Definition sign (n : number) : number :=
  if n =? 0 then 0 else if n <? 0 then -1 else 1.

(** [a || b] on numbers: [b] when [a] is falsy. *)
Definition or_else (a b : number) : number := if Number.truthy a then a else b.

(** A value handed to the [text] setter. *)
Inductive Value : Type :=
| VString (s : string)
| VNull
| VUndefined.

(** A reference held in a field: the object, or [null]. *)
Inductive ref : Type := obj | null.

(** The truthiness of a reference. *)
Definition is_obj (r : ref) : bool :=
  match r with obj => true | null => false end.

Module Rectangle.
Record t : Type := mk { x : number; y : number; width : number; height : number }.
(** [new Rectangle()] *)
Definition empty : t := mk 0 0 0 0.
End Rectangle.

(** The properties of a [TextStyle] that steer [HTMLText]: the change
    counter, the padding and the trim switch.  Its other properties only
    reach the CSS text given to the DOM node (index.ts 97-159), which is
    read back through the measured bounding box alone. *)
Module TextStyle.
Record t : Type := mk { styleID : Z; padding : number; trim : bool }.
End TextStyle.

(** A block of pixels, as returned by [getImageData]. *)
Module ImageData.
Record t : Type := mk { width : Z; height : Z }.
End ImageData.

(** An [HTMLCanvasElement] with its 2D context.  [bitmap] is [None] when
    every pixel is transparent. *)
Module Canvas.
Record t : Type := mk { width : Z; height : Z; bitmap : option ImageData.t }.

(** What an [unsigned long] property that reflects a content attribute
    keeps of the integer assigned to it: the integer is taken modulo
    [2^32], and a result above [2^31 - 1] is replaced by the default of the
    attribute. *)
Definition unsigned_long (default v : Z) : Z :=
  let u := (v mod 2 ^ 32)%Z in
  if (u <=? 2147483647)%Z then u else default.

(** [canvas.width = w] and [canvas.height = h], [w] and [h] being the
    integer parts of the numbers assigned: the defaults are 300 and 150,
    and the assignment clears the bitmap. *)
Definition set_width (w : Z) (c : t) : t := mk (unsigned_long 300 w) (height c) None.
Definition set_height (h : Z) (c : t) : t := mk (width c) (unsigned_long 150 h) None.
(** [context.clearRect(0, 0, canvas.width, canvas.height)] *)
Definition clearRect (c : t) : t := mk (width c) (height c) None.
(** [context.drawImage(image, ...)]: the pixels are the browser's. *)
Definition drawImage (painted : option ImageData.t) (c : t) : t :=
  mk (width c) (height c) painted.
(** [context.putImageData(data, 0, 0)] *)
Definition putImageData (data : ImageData.t) (c : t) : t :=
  mk (width c) (height c) (Some data).
End Canvas.

(** The result of [getBoundingClientRect()]. *)
Module DOMRect.
Record t : Type := mk { width : number; height : number }.
End DOMRect.

(** The result of [utils.trimCanvas(canvas)]. *)
Module Trimmed.
Record t : Type := mk { width : Z; height : Z; data : option ImageData.t }.
End Trimmed.

(** The SVG document serialised into [image.src]. *)
Module SvgDocument.
Record t : Type := mk {
  width : number;
  height : number;
  innerHTML : option string;
  style : TextStyle.t
}.
End SvgDocument.

(** The variables an [onload] arrow function closes over, besides the
    canvas, its context and the image themselves. *)
Module Closure.
Record t : Type := mk { resolution : number; width : number; height : number }.
End Closure.

(** The [HTMLImageElement] used for decoding.  [src = None] is the empty
    source. *)
Module Image.
Record t : Type := mk {
  src : option SvgDocument.t;
  onload : option Closure.t;
  onerror : option Closure.t
}.
(** [new Image()] *)
Definition fresh : t := mk None None None.
Definition set_src (v : option SvgDocument.t) (i : t) : t :=
  mk v (onload i) (onerror i).
Definition set_onload (v : option Closure.t) (i : t) : t :=
  mk (src i) v (onerror i).
End Image.

(** The size and resolution a [BaseTexture] holds. *)
Module BaseTexture.
Record t : Type := mk { realWidth : Z; realHeight : Z; resolution : number }.
End BaseTexture.

Module Texture.
Record t : Type := mk {
  orig : Rectangle.t;
  trim : Rectangle.t;
  _frame : Rectangle.t;
  baseTexture : BaseTexture.t
}.
End Texture.

(** The state of the base class [Sprite] that [HTMLText] reads or writes. *)
Module Sprite.
Record t : Type := mk {
  scale_x : number; scale_y : number; _width : number; _height : number
}.
Definition set_scale_x (v : number) (s : t) : t := mk v (scale_y s) (_width s) (_height s).
Definition set_scale_y (v : number) (s : t) : t := mk (scale_x s) v (_width s) (_height s).
Definition set__width (v : number) (s : t) : t := mk (scale_x s) (scale_y s) v (_height s).
Definition set__height (v : number) (s : t) : t := mk (scale_x s) (scale_y s) (_width s) v.
End Sprite.

(** The scratch DOM tree of the TypeScript revision: the [div] inside the
    [foreignObject] inside the [svg] root. *)
Module Scratch.
Record t : Type := mk {
  innerHTML : option string;
  style : option TextStyle.t;
  svg_width : number;
  svg_height : number
}.
Definition fresh : t := mk None None 0 0.
End Scratch.

(** What the host supplies.
    - [utils.trimCanvas]: a canvas without an opaque pixel yields no data.
    - [Sprite._onTextureUpdate], called on the sprite with its texture.
    - [baseTexture.setRealSize(realWidth, realHeight, resolution)]: it
      resizes the base texture and lets it announce the update, upon which
      the engine adjusts the texture that was made without a frame
      ([Texture.from(canvas)]) and whoever listens to it; [orig] and [trim]
      belong to [HTMLText] and are left alone.
    - [Sprite.destroy(options)], called as [super.destroy]: with [true] it
      destroys the texture as well.
    - [querySelector('div')] on what the XML parser of index.js made of the
      document: [false] when there is no [div] (the text is not well-formed
      XML and the parser reports an error document). *)
Class Pixi : Type := {
  trimCanvas : Canvas.t -> Trimmed.t;
  trimCanvas_transparent :
    forall c, Canvas.bitmap c = None -> Trimmed.data (trimCanvas c) = None;
  _onTextureUpdate : Texture.t -> Sprite.t -> Sprite.t;
  setRealSize : Z -> Z -> number -> Sprite.t * Texture.t -> Sprite.t * Texture.t;
  setRealSize_orig :
    forall realWidth realHeight resolution st,
      Texture.orig (snd (setRealSize realWidth realHeight resolution st))
      = Texture.orig (snd st);
  setRealSize_trim :
    forall realWidth realHeight resolution st,
      Texture.trim (snd (setRealSize realWidth realHeight resolution st))
      = Texture.trim (snd st);
  super_destroy : option bool -> Sprite.t * Texture.t -> Sprite.t * Texture.t;
  querySelector_div : SvgDocument.t -> bool
}.

(* ===================================================================== *)
(** * The instance and the world around it *)
(* ===================================================================== *)

(** The fields declared by [HTMLText] (both revisions together). *)
Module HTMLText.
Record t : Type := mk {
  _domElement : ref;          (* index.ts only *)
  _svgRoot : ref;             (* index.ts only *)
  _foreignObject : ref;       (* index.ts only *)
  _parser : ref;              (* index.js only *)
  _image : ref;
  canvas : ref;
  context : ref;
  _resolution : number;
  _text : option string;
  _style : option TextStyle.t;
  _autoResolution : bool;
  _loading : bool;
  localStyleID : Z;
  dirty : bool
}.

Definition set__resolution (v : number) (h : t) : t :=
  mk (_domElement h) (_svgRoot h) (_foreignObject h) (_parser h) (_image h)
     (canvas h) (context h) v (_text h) (_style h) (_autoResolution h)
     (_loading h) (localStyleID h) (dirty h).
Definition set__text (v : option string) (h : t) : t :=
  mk (_domElement h) (_svgRoot h) (_foreignObject h) (_parser h) (_image h)
     (canvas h) (context h) (_resolution h) v (_style h) (_autoResolution h)
     (_loading h) (localStyleID h) (dirty h).
Definition set__style (v : option TextStyle.t) (h : t) : t :=
  mk (_domElement h) (_svgRoot h) (_foreignObject h) (_parser h) (_image h)
     (canvas h) (context h) (_resolution h) (_text h) v (_autoResolution h)
     (_loading h) (localStyleID h) (dirty h).
Definition set__autoResolution (v : bool) (h : t) : t :=
  mk (_domElement h) (_svgRoot h) (_foreignObject h) (_parser h) (_image h)
     (canvas h) (context h) (_resolution h) (_text h) (_style h) v
     (_loading h) (localStyleID h) (dirty h).
Definition set__loading (v : bool) (h : t) : t :=
  mk (_domElement h) (_svgRoot h) (_foreignObject h) (_parser h) (_image h)
     (canvas h) (context h) (_resolution h) (_text h) (_style h)
     (_autoResolution h) v (localStyleID h) (dirty h).
Definition set_localStyleID (v : Z) (h : t) : t :=
  mk (_domElement h) (_svgRoot h) (_foreignObject h) (_parser h) (_image h)
     (canvas h) (context h) (_resolution h) (_text h) (_style h)
     (_autoResolution h) (_loading h) v (dirty h).
Definition set_dirty (v : bool) (h : t) : t :=
  mk (_domElement h) (_svgRoot h) (_foreignObject h) (_parser h) (_image h)
     (canvas h) (context h) (_resolution h) (_text h) (_style h)
     (_autoResolution h) (_loading h) (localStyleID h) v.
Definition set_canvas (v : ref) (h : t) : t :=
  mk (_domElement h) (_svgRoot h) (_foreignObject h) (_parser h) (_image h)
     v (context h) (_resolution h) (_text h) (_style h)
     (_autoResolution h) (_loading h) (localStyleID h) (dirty h).
Definition set_context (v : ref) (h : t) : t :=
  mk (_domElement h) (_svgRoot h) (_foreignObject h) (_parser h) (_image h)
     (canvas h) v (_resolution h) (_text h) (_style h)
     (_autoResolution h) (_loading h) (localStyleID h) (dirty h).
Definition set__image (v : ref) (h : t) : t :=
  mk (_domElement h) (_svgRoot h) (_foreignObject h) (_parser h) v
     (canvas h) (context h) (_resolution h) (_text h) (_style h)
     (_autoResolution h) (_loading h) (localStyleID h) (dirty h).
Definition set__parser (v : ref) (h : t) : t :=
  mk (_domElement h) (_svgRoot h) (_foreignObject h) v (_image h)
     (canvas h) (context h) (_resolution h) (_text h) (_style h)
     (_autoResolution h) (_loading h) (localStyleID h) (dirty h).
Definition set_nodes (v : ref) (h : t) : t :=
  mk v v v (_parser h) (_image h)
     (canvas h) (context h) (_resolution h) (_text h) (_style h)
     (_autoResolution h) (_loading h) (localStyleID h) (dirty h).
End HTMLText.

(** What the instance does to the browser and to the texture, in order
    (newest first).  The log is a ghost: no code reads it. *)
Inductive Effect : Type :=
| Measured                                   (* appendChild, getBoundingClientRect, removeChild *)
| DecodeRequested (doc : SvgDocument.t)      (* image.src = data URL *)
| Drawn                                      (* context.drawImage *)
| TextureUpdated.                            (* updateTexture ran to its end *)

(** The instance together with the objects it shares with the browser (the
    canvas, the image and the scratch nodes stay reachable from a pending
    [onload] after [destroy] has dropped the instance's references). *)
Record World : Type := mkWorld {
  this : HTMLText.t;
  sprite : Sprite.t;
  texture : Texture.t;
  canvasEl : Canvas.t;
  imageEl : Image.t;
  scratch : Scratch.t;
  log : list Effect
}.

Definition with_this (f : HTMLText.t -> HTMLText.t) (w : World) : World :=
  mkWorld (f (this w)) (sprite w) (texture w) (canvasEl w) (imageEl w) (scratch w) (log w).
Definition with_sprite (f : Sprite.t -> Sprite.t) (w : World) : World :=
  mkWorld (this w) (f (sprite w)) (texture w) (canvasEl w) (imageEl w) (scratch w) (log w).
Definition with_texture (f : Texture.t -> Texture.t) (w : World) : World :=
  mkWorld (this w) (sprite w) (f (texture w)) (canvasEl w) (imageEl w) (scratch w) (log w).
Definition with_sprite_texture
    (f : Sprite.t * Texture.t -> Sprite.t * Texture.t) (w : World) : World :=
  mkWorld (this w) (fst (f (sprite w, texture w))) (snd (f (sprite w, texture w)))
          (canvasEl w) (imageEl w) (scratch w) (log w).
Definition with_canvasEl (f : Canvas.t -> Canvas.t) (w : World) : World :=
  mkWorld (this w) (sprite w) (texture w) (f (canvasEl w)) (imageEl w) (scratch w) (log w).
Definition with_imageEl (f : Image.t -> Image.t) (w : World) : World :=
  mkWorld (this w) (sprite w) (texture w) (canvasEl w) (f (imageEl w)) (scratch w) (log w).
Definition with_scratch (f : Scratch.t -> Scratch.t) (w : World) : World :=
  mkWorld (this w) (sprite w) (texture w) (canvasEl w) (imageEl w) (f (scratch w)) (log w).
Definition emit (e : Effect) (w : World) : World :=
  mkWorld (this w) (sprite w) (texture w) (canvasEl w) (imageEl w) (scratch w) (e :: log w).

(** How often an effect of a kind was logged. *)
Definition is_measured (e : Effect) : bool :=
  match e with Measured => true | _ => false end.
Definition is_decode (e : Effect) : bool :=
  match e with DecodeRequested _ => true | _ => false end.
Definition is_drawn (e : Effect) : bool :=
  match e with Drawn => true | _ => false end.
Definition is_texture_update (e : Effect) : bool :=
  match e with TextureUpdated => true | _ => false end.

Definition measurements (w : World) : nat := List.length (filter is_measured (log w)).
Definition decodes_requested (w : World) : nat := List.length (filter is_decode (log w)).
Definition decodes_completed (w : World) : nat := List.length (filter is_drawn (log w)).
Definition texture_updates (w : World) : nat := List.length (filter is_texture_update (log w)).

(* ===================================================================== *)
(** * Methods as computations *)
(* ===================================================================== *)

(** A call returns a value or throws; either way it leaves a world. *)
Inductive Outcome (A : Type) : Type :=
| Returned (a : A) (w : World)
| Thrown (w : World).
Arguments Returned {A} a w.
Arguments Thrown {A} w.

Definition M (A : Type) : Type := World -> Outcome A.

Definition ret {A} (a : A) : M A := fun w => Returned a w.
Definition bind {A B} (m : M A) (k : A -> M B) : M B :=
  fun w => match m w with
           | Returned a w' => k a w'
           | Thrown w' => Thrown w'
           end.
Definition throw {A} : M A := fun w => Thrown w.
Definition current : M World := fun w => Returned w w.
Definition modify (f : World -> World) : M unit := fun w => Returned tt (f w).

Declare Scope method_scope.
Delimit Scope method_scope with method.
Notation "x <- m ;; k" := (bind m (fun x => k))
  (at level 61, m at next level, right associativity) : method_scope.
Notation "m ;; k" := (bind m (fun _ => k))
  (at level 61, right associativity) : method_scope.
Local Open Scope method_scope.

(** The world a call leaves, and whether it returned. *)
Definition world_of {A} (o : Outcome A) : World :=
  match o with Returned _ w => w | Thrown w => w end.
Definition returned {A} (o : Outcome A) : bool :=
  match o with Returned _ _ => true | Thrown _ => false end.

(** Reading a property of a field that may be [null]. *)
Definition deref (r : ref) : M unit :=
  fun w => match r with obj => Returned tt w | null => Thrown w end.
Definition unwrap {A} (o : option A) : M A :=
  fun w => match o with Some a => Returned a w | None => Thrown w end.
Definition when (b : bool) (m : M unit) : M unit :=
  fun w => if b then m w else Returned tt w.

Definition field {A} (f : HTMLText.t -> A) : M A := fun w => Returned (f (this w)) w.
Definition assign (f : HTMLText.t -> HTMLText.t) : M unit := modify (with_this f).

(* ===================================================================== *)
(** * The members both revisions share verbatim *)
(* ===================================================================== *)

Definition string_eq (a : option string) (b : string) : bool :=
  match a with Some s => String.eqb s b | None => false end.

(** [String(text === '' || text === null || text === undefined ? ' ' : text)] *)
Definition coerce (text : Value) : string :=
  match text with
  | VString s => if String.eqb s "" then " " else s
  | VNull => " "
  | VUndefined => " "
  end.

(** [set text(text)], index.ts 426-437 and index.js 389-400. *)
Definition set_text (text : Value) : M unit :=
  let text := Text.sanitiseText (coerce text) in
  _text <- field HTMLText._text ;;
  if string_eq _text text then ret tt
  else
    assign (HTMLText.set__text (Some text)) ;;
    assign (HTMLText.set_dirty true).

(** [get text()] *)
Definition get_text : M (option string) := field HTMLText._text.

(** [set resolution(value)], index.ts 450-461 and index.js 413-424. *)
Definition set_resolution (value : number) : M unit :=
  assign (HTMLText.set__autoResolution false) ;;
  _resolution <- field HTMLText._resolution ;;
  if strict_eq _resolution value then ret tt
  else
    assign (HTMLText.set__resolution value) ;;
    assign (HTMLText.set_dirty true).

(** [get resolution()] *)
Definition get_resolution : M number := field HTMLText._resolution.

(** [set style(style)], index.ts 398-413 and index.js 363-378.  [style] is
    the [TextStyle] given, or the one [new TextStyle(style)] builds. *)
Definition set_style (style : TextStyle.t) : M unit :=
  assign (HTMLText.set__style (Some style)) ;;
  assign (HTMLText.set_localStyleID (-1)) ;;
  assign (HTMLText.set_dirty true).

(** [get style()] *)
Definition get_style : M (option TextStyle.t) := field HTMLText._style.

(** [_onStyleChange()] *)
Definition _onStyleChange : M unit := assign (HTMLText.set_dirty true).

(** The owner of the style object changes one of its properties: the
    property setters of [TextStyle] count the change in [styleID]. *)
Definition mutate_style (padding : number) (trim : bool) : M unit :=
  style <- field HTMLText._style ;;
  match style with
  | Some s =>
      assign (HTMLText.set__style
                (Some (TextStyle.mk (TextStyle.styleID s + 1) padding trim)))
  | None => ret tt
  end.

(** The head of [_render] and [_renderCanvas]:
    [if (this._autoResolution && this._resolution !== renderer.resolution)]. *)
Definition follow_renderer (renderer_resolution : number) : M unit :=
  _autoResolution <- field HTMLText._autoResolution ;;
  _resolution <- field HTMLText._resolution ;;
  when (_autoResolution && negb (strict_eq _resolution renderer_resolution))
    (assign (HTMLText.set__resolution renderer_resolution) ;;
     assign (HTMLText.set_dirty true)).

(** What a caller or the browser can do to an instance.  A member that may
    run [updateText] carries the bounding box the DOM would report; the
    [load] event carries the pixels the decoded image draws. *)
Inductive Action : Type :=
| SetText (text : Value)
| SetStyle (style : TextStyle.t)
| MutateStyle (padding : number) (trim : bool)
| SetResolution (value : number)
| OnStyleChange
| UpdateText (box : DOMRect.t) (respectDirty : bool)
| Render (renderer_resolution : number) (box : DOMRect.t)
| RenderCanvas (renderer_resolution : number) (box : DOMRect.t)
| GetLocalBounds (box : DOMRect.t)
| CalculateBounds (box : DOMRect.t)
| GetWidth (box : DOMRect.t)
| SetWidth (value : number) (box : DOMRect.t)
| GetHeight (box : DOMRect.t)
| SetHeight (value : number) (box : DOMRect.t)
| Destroy
| Load (painted : option ImageData.t)        (* the image fires [load] *)
| Error.                                     (* the image fires [error] *)

Definition is_load (a : Action) : bool :=
  match a with Load _ => true | _ => false end.

(** The decodes requested and not yet completed are as many as [_loading]
    says, a pending [onload] means [_loading], nothing listens for [error],
    and the image is there as long as the node [updateText] measures with
    ([_domElement] in index.ts, [_parser] in index.js) is. *)
Definition pending (w : World) : nat :=
  if HTMLText._loading (this w) then 1%nat else 0%nat.

Definition coherent (node : HTMLText.t -> ref) (w : World) : Prop :=
  decodes_requested w = (decodes_completed w + pending w)%nat
  /\ (Image.onload (imageEl w) <> None -> HTMLText._loading (this w) = true)
  /\ Image.onerror (imageEl w) = None
  /\ (node (this w) = obj -> HTMLText._image (this w) = obj).

(** [updateText(true)] has work to do: the style changed since the last pass
    or the instance is dirty. *)
Definition stale (w : World) : bool :=
  match HTMLText._style (this w) with
  | Some style => negb (HTMLText.localStyleID (this w) =? TextStyle.styleID style)%Z
  | None => false
  end
  || HTMLText.dirty (this w).

(* ===================================================================== *)
(** * The TypeScript revision, [src/index.ts] *)
(* ===================================================================== *)

Module TS.
Section Members.
Context {pixi : Pixi}.

(** [updateTexture()], index.ts 212-248. *)
Definition updateTexture : M unit :=
  style <- field HTMLText._style ;;
  resolution <- field HTMLText._resolution ;;
  canvas <- field HTMLText.canvas ;;
  style <- unwrap style ;;                                  (* style.trim *)
  when (TextStyle.trim style)
    (deref canvas ;;                                        (* trimCanvas reads the canvas *)
     w <- current ;;
     let trimmed := trimCanvas (canvasEl w) in
     match Trimmed.data trimmed with
     | Some data =>
         modify (with_canvasEl (Canvas.set_width (Trimmed.width trimmed))) ;;
         modify (with_canvasEl (Canvas.set_height (Trimmed.height trimmed))) ;;
         modify (with_canvasEl (Canvas.putImageData data))
     | None => ret tt
     end) ;;
  let padding := if TextStyle.trim style then 0 else TextStyle.padding style in
  deref canvas ;;                                           (* canvas.width *)
  w <- current ;;
  let frame_width := Number.of_Z (Canvas.width (canvasEl w)) / resolution in
  let frame_height := Number.of_Z (Canvas.height (canvasEl w)) / resolution in
  modify (with_texture (fun t =>
    Texture.mk
      (Rectangle.mk (Rectangle.x (Texture.orig t)) (Rectangle.y (Texture.orig t))
                    (frame_width - padding * 2) (frame_height - padding * 2))
      (Rectangle.mk (- padding) (- padding) frame_width frame_height)
      (Rectangle.mk (Rectangle.x (Texture._frame t)) (Rectangle.y (Texture._frame t))
                    frame_width frame_height)
      (Texture.baseTexture t))) ;;
  (* call sprite onTextureUpdate to update scale if _width or _height were set *)
  modify (fun w => with_sprite (_onTextureUpdate (texture w)) w) ;;
  (* baseTexture.setRealSize(canvas.width, canvas.height, resolution) *)
  modify (fun w => with_sprite_texture
    (setRealSize (Canvas.width (canvasEl w)) (Canvas.height (canvasEl w)) resolution) w) ;;
  assign (HTMLText.set_dirty false) ;;
  modify (emit TextureUpdated).

(** The arrow function installed as [image.onload], index.ts 191-204.  It
    reaches the canvas, the context and the image through its closure, not
    through [this]. *)
Definition onload (closure : Closure.t) (painted : option ImageData.t) : M unit :=
  (* context.scale(resolution, resolution): the transform is not modelled *)
  modify (with_canvasEl Canvas.clearRect) ;;
  modify (with_canvasEl (Canvas.drawImage painted)) ;;
  modify (emit Drawn) ;;
  modify (with_imageEl (Image.set_src None)) ;;
  modify (with_imageEl (Image.set_onload None)) ;;
  assign (HTMLText.set__loading false) ;;
  updateTexture.

(** [updateText(respectDirty = true)], index.ts 78-206. *)
Definition updateText (box : DOMRect.t) (respectDirty : bool) : M unit :=
  style <- field HTMLText._style ;;
  resolution <- field HTMLText._resolution ;;
  canvas <- field HTMLText.canvas ;;
  (* check if style has changed.. *)
  style <- unwrap style ;;                                  (* style.styleID *)
  localStyleID <- field HTMLText.localStyleID ;;
  when (negb (localStyleID =? TextStyle.styleID style)%Z)
    (assign (HTMLText.set_dirty true) ;;
     assign (HTMLText.set_localStyleID (TextStyle.styleID style))) ;;
  dirty <- field HTMLText.dirty ;;
  if negb dirty && respectDirty then ret tt
  else
    dom <- field HTMLText._domElement ;;
    deref dom ;;                                            (* Object.assign(dom, ...) *)
    _text <- field HTMLText._text ;;
    modify (with_scratch (fun s =>
      Scratch.mk _text (Some style) (Scratch.svg_width s) (Scratch.svg_height s))) ;;
    (* Measure the contents *)
    modify (emit Measured) ;;
    let width := Math.ceil (DOMRect.width box) in
    let height := Math.ceil (DOMRect.height box) in
    (* Assemble the svg output *)
    _foreignObject <- field HTMLText._foreignObject ;;
    deref _foreignObject ;;
    _svgRoot <- field HTMLText._svgRoot ;;
    deref _svgRoot ;;
    modify (with_scratch (fun s =>
      Scratch.mk (Scratch.innerHTML s) (Scratch.style s) width height)) ;;
    deref canvas ;;
    modify (with_canvasEl (Canvas.set_width (Number.integer_part
      (Math.ceil ((Math.max 1 width + TextStyle.padding style * 2) * resolution))))) ;;
    modify (with_canvasEl (Canvas.set_height (Number.integer_part
      (Math.ceil ((Math.max 1 height + TextStyle.padding style * 2) * resolution))))) ;;
    _loading <- field HTMLText._loading ;;
    when (negb _loading)
      (image <- field HTMLText._image ;;
       w <- current ;;
       let svgURL :=
         SvgDocument.mk (Scratch.svg_width (scratch w)) (Scratch.svg_height (scratch w))
                        (Scratch.innerHTML (scratch w)) style in
       assign (HTMLText.set__loading true) ;;
       deref image ;;                                       (* image.src = ... *)
       modify (with_imageEl (Image.set_src (Some svgURL))) ;;
       modify (emit (DecodeRequested svgURL)) ;;
       modify (with_imageEl (Image.set_onload
         (Some (Closure.mk resolution width height))))).

(** [_render(renderer)], index.ts 256-267; [super._render] draws and leaves
    the fields alone. *)
Definition _render (renderer_resolution : number) (box : DOMRect.t) : M unit :=
  follow_renderer renderer_resolution ;;
  updateText box true.

(** [_renderCanvas(renderer)], index.ts 275-288. *)
Definition _renderCanvas (renderer_resolution : number) (box : DOMRect.t) : M unit :=
  follow_renderer renderer_resolution ;;
  updateText box true.

(** [getLocalBounds(rect)], index.ts 296-301, and [_calculateBounds()],
    303-309: the refresh they force. *)
Definition getLocalBounds (box : DOMRect.t) : M unit := updateText box true.
Definition _calculateBounds (box : DOMRect.t) : M unit := updateText box true.

(** [destroy()], index.ts 324-345: [options] is [undefined]. *)
Definition destroy : M unit :=
  modify (with_sprite_texture (super_destroy None)) ;;
  assign (HTMLText.set_context null) ;;
  canvas <- field HTMLText.canvas ;;
  when (is_obj canvas)
    (modify (with_canvasEl (Canvas.set_height 0)) ;;
     modify (with_canvasEl (Canvas.set_width 0))) ;;       (* Safari hack *)
  assign (HTMLText.set_canvas null) ;;
  assign (HTMLText.set__style None) ;;
  assign (HTMLText.set_nodes null) ;;
  image <- field HTMLText._image ;;
  deref image ;;                                            (* this._image.onload = null *)
  modify (with_imageEl (Image.set_onload None)) ;;
  modify (with_imageEl (Image.set_src None)) ;;
  assign (HTMLText.set__image null).

(** [get width()], index.ts 351-356. *)
Definition get_width (box : DOMRect.t) : M number :=
  updateText box true ;;
  canvas <- field HTMLText.canvas ;;
  deref canvas ;;
  w <- current ;;
  ret (Math.abs (Sprite.scale_x (sprite w)) * Number.of_Z (Canvas.width (canvasEl w))
       / HTMLText._resolution (this w)).

(** [set width(value)], index.ts 358-366. *)
Definition set_width (value : number) (box : DOMRect.t) : M unit :=
  updateText box true ;;
  w <- current ;;
  let s := or_else (sign (Sprite.scale_x (sprite w))) 1 in
  canvas <- field HTMLText.canvas ;;
  deref canvas ;;
  modify (with_sprite (Sprite.set_scale_x
    (s * value / Number.of_Z (Canvas.width (canvasEl w)) / HTMLText._resolution (this w)))) ;;
  modify (with_sprite (Sprite.set__width value)).

(** [get height()], index.ts 372-377. *)
Definition get_height (box : DOMRect.t) : M number :=
  updateText box true ;;
  canvas <- field HTMLText.canvas ;;
  deref canvas ;;
  w <- current ;;
  ret (Math.abs (Sprite.scale_y (sprite w)) * Number.of_Z (Canvas.height (canvasEl w))
       / HTMLText._resolution (this w)).

(** [set height(value)], index.ts 379-387. *)
Definition set_height (value : number) (box : DOMRect.t) : M unit :=
  updateText box true ;;
  w <- current ;;
  let s := or_else (sign (Sprite.scale_y (sprite w))) 1 in
  canvas <- field HTMLText.canvas ;;
  deref canvas ;;
  modify (with_sprite (Sprite.set_scale_y
    (s * value / Number.of_Z (Canvas.height (canvasEl w)) / HTMLText._resolution (this w)))) ;;
  modify (with_sprite (Sprite.set__height value)).

(** The browser delivers [load] to the image: its [onload], if any, runs. *)
Definition fire_load (painted : option ImageData.t) : M unit :=
  w <- current ;;
  match Image.onload (imageEl w) with
  | Some closure => onload closure painted
  | None => ret tt
  end.

(** The browser delivers [error] to the image: the function held by
    [onerror], if any, runs.  The arrow function above is the only function
    this class ever stores in an event-handler property. *)
Definition fire_error : M unit :=
  w <- current ;;
  match Image.onerror (imageEl w) with
  | Some closure => onload closure None
  | None => ret tt
  end.

(** [new HTMLText(text, style, canvas)], index.ts 17-70, given what
    [Texture.from(canvas)], the [Sprite] constructor and
    [settings.RESOLUTION] provide. *)
Definition construct (text : Value) (style : TextStyle.t)
    (base : BaseTexture.t) (frame : Rectangle.t) (sprite0 : Sprite.t)
    (RESOLUTION : number) : World :=
  let canvas := Canvas.set_height 3 (Canvas.set_width 3 (Canvas.mk 0 0 None)) in
  let texture := Texture.mk Rectangle.empty Rectangle.empty frame base in
  let fields :=
    HTMLText.mk obj obj obj null obj obj obj RESOLUTION None None true false (-1) false in
  let w0 := mkWorld fields sprite0 texture canvas Image.fresh Scratch.fresh [] in
  world_of ((set_text (match text with VUndefined => VString "" | v => v end) ;;
             set_style style) w0).

Definition step (a : Action) : M unit :=
  match a with
  | SetText text => set_text text
  | SetStyle style => set_style style
  | MutateStyle padding trim => mutate_style padding trim
  | SetResolution value => set_resolution value
  | OnStyleChange => _onStyleChange
  | UpdateText box respectDirty => updateText box respectDirty
  | Render r box => _render r box
  | RenderCanvas r box => _renderCanvas r box
  | GetLocalBounds box => getLocalBounds box
  | CalculateBounds box => _calculateBounds box
  | GetWidth box => (get_width box ;; ret tt)
  | SetWidth value box => set_width value box
  | GetHeight box => (get_height box ;; ret tt)
  | SetHeight value box => set_height value box
  | Destroy => destroy
  | Load painted => fire_load painted
  | Error => fire_error
  end.

(** A thrown exception ends the call, not the program: the next action
    starts from the world the throw left. *)
Fixpoint run (actions : list Action) (w : World) : World :=
  match actions with
  | [] => w
  | a :: rest => run rest (world_of (step a w))
  end.

End Members.

(** The instance has been constructed and not destroyed: every reference
    [updateText] follows is there. *)
Definition live (w : World) : bool :=
  match HTMLText._style (this w) with Some _ => true | None => false end
  && is_obj (HTMLText._domElement (this w))
  && is_obj (HTMLText._foreignObject (this w))
  && is_obj (HTMLText._svgRoot (this w))
  && is_obj (HTMLText.canvas (this w))
  && is_obj (HTMLText._image (this w)).

End TS.

(* ===================================================================== *)
(** * The JavaScript revision, [src/index.js] *)
(* ===================================================================== *)

Module JS.
Section Members.
Context {pixi : Pixi}.

(** [updateTexture()], index.js 189-222. *)
Definition updateTexture : M unit :=
  canvas <- field HTMLText.canvas ;;
  style <- field HTMLText._style ;;
  resolution <- field HTMLText._resolution ;;
  style <- unwrap style ;;                                  (* style.trim *)
  when (TextStyle.trim style)
    (deref canvas ;;                                        (* trimCanvas reads the canvas *)
     w <- current ;;
     let trimmed := trimCanvas (canvasEl w) in
     match Trimmed.data trimmed with
     | Some data =>
         modify (with_canvasEl (Canvas.set_width (Trimmed.width trimmed))) ;;
         modify (with_canvasEl (Canvas.set_height (Trimmed.height trimmed))) ;;
         modify (with_canvasEl (Canvas.putImageData data))
     | None => ret tt
     end) ;;
  let padding := if TextStyle.trim style then 0 else TextStyle.padding style in
  deref canvas ;;                                           (* canvas.width *)
  w <- current ;;
  let frame_width := Math.ceil (Number.of_Z (Canvas.width (canvasEl w)) / resolution) in
  let frame_height := Math.ceil (Number.of_Z (Canvas.height (canvasEl w)) / resolution) in
  modify (with_texture (fun t =>
    Texture.mk
      (Rectangle.mk (Rectangle.x (Texture.orig t)) (Rectangle.y (Texture.orig t))
                    (frame_width - padding * 2) (frame_height - padding * 2))
      (Rectangle.mk (- padding) (- padding) frame_width frame_height)
      (Rectangle.mk (Rectangle.x (Texture._frame t)) (Rectangle.y (Texture._frame t))
                    frame_width frame_height)
      (Texture.baseTexture t))) ;;
  (* call sprite onTextureUpdate to update scale if _width or _height were set *)
  modify (fun w => with_sprite (_onTextureUpdate (texture w)) w) ;;
  (* baseTexture.setRealSize(canvas.width, canvas.height, resolution) *)
  modify (fun w => with_sprite_texture
    (setRealSize (Canvas.width (canvasEl w)) (Canvas.height (canvasEl w)) resolution) w) ;;
  assign (HTMLText.set_dirty false) ;;
  modify (emit TextureUpdated).

(** The arrow function installed as [image.onload], index.js 169-180. *)
Definition onload (closure : Closure.t) (painted : option ImageData.t) : M unit :=
  modify (with_canvasEl (Canvas.drawImage painted)) ;;
  modify (emit Drawn) ;;
  modify (with_imageEl (Image.set_onload None)) ;;
  modify (with_imageEl (Image.set_src None)) ;;
  assign (HTMLText.set__loading false) ;;
  updateTexture.

(** [updateText(respectDirty)], index.js 60-183. *)
Definition updateText (box : DOMRect.t) (respectDirty : bool) : M unit :=
  style <- field HTMLText._style ;;
  canvas <- field HTMLText.canvas ;;
  context <- field HTMLText.context ;;
  resolution <- field HTMLText._resolution ;;
  (* check if style has changed.. *)
  style <- unwrap style ;;                                  (* style.styleID *)
  localStyleID <- field HTMLText.localStyleID ;;
  when (negb (localStyleID =? TextStyle.styleID style)%Z)
    (assign (HTMLText.set_dirty true) ;;
     assign (HTMLText.set_localStyleID (TextStyle.styleID style))) ;;
  dirty <- field HTMLText.dirty ;;
  if negb dirty && respectDirty then ret tt
  else
    _text <- field HTMLText._text ;;
    let svg := SvgDocument.mk 2048 2048 _text style in
    (* Used to measure to D *)
    _parser <- field HTMLText._parser ;;
    deref _parser ;;                                        (* this._parser.parseFromString *)
    let div := if querySelector_div svg then obj else null in
    deref div ;;                                            (* document.body.appendChild(div) *)
    modify (emit Measured) ;;
    let width := DOMRect.width box in
    let height := DOMRect.height box in
    deref canvas ;;
    modify (with_canvasEl (Canvas.set_width (Number.integer_part
      (Math.ceil ((Math.max 1 width + TextStyle.padding style * 2) * resolution))))) ;;
    modify (with_canvasEl (Canvas.set_height (Number.integer_part
      (Math.ceil ((Math.max 1 height + TextStyle.padding style * 2) * resolution))))) ;;
    deref context ;;                                        (* context.scale *)
    modify (with_canvasEl Canvas.clearRect) ;;
    _loading <- field HTMLText._loading ;;
    when (negb _loading)
      (image <- field HTMLText._image ;;
       assign (HTMLText.set__loading true) ;;
       deref image ;;                                       (* image.src = ... *)
       modify (with_imageEl (Image.set_src (Some svg))) ;;
       modify (emit (DecodeRequested svg)) ;;
       modify (with_imageEl (Image.set_onload
         (Some (Closure.mk resolution width height)))) ;;
       updateTexture).

(** [_render(renderer)], index.js 230-241. *)
Definition _render (renderer_resolution : number) (box : DOMRect.t) : M unit :=
  follow_renderer renderer_resolution ;;
  updateText box true.

(** [_renderCanvas(renderer)], index.js 249-260. *)
Definition _renderCanvas (renderer_resolution : number) (box : DOMRect.t) : M unit :=
  follow_renderer renderer_resolution ;;
  updateText box true.

(** [getLocalBounds(rect)], index.js 268-273, and [_calculateBounds()],
    275-281: the refresh they force. *)
Definition getLocalBounds (box : DOMRect.t) : M unit := updateText box true.
Definition _calculateBounds (box : DOMRect.t) : M unit := updateText box true.

(** [destroy()], index.js 296-310: [options] defaults to [true]. *)
Definition destroy : M unit :=
  modify (with_sprite_texture (super_destroy (Some true))) ;;
  assign (HTMLText.set_context null) ;;
  canvas <- field HTMLText.canvas ;;
  deref canvas ;;                                           (* this.canvas.width = ... *)
  modify (with_canvasEl (Canvas.set_height 0)) ;;
  modify (with_canvasEl (Canvas.set_width 0)) ;;            (* Safari hack *)
  assign (HTMLText.set_canvas null) ;;
  assign (HTMLText.set__style None) ;;
  assign (HTMLText.set__parser null) ;;
  image <- field HTMLText._image ;;
  deref image ;;                                            (* this._image.onload = null *)
  modify (with_imageEl (Image.set_onload None)) ;;
  modify (with_imageEl (Image.set_src None)) ;;
  assign (HTMLText.set__image null).

(** [get width()], index.js 316-321. *)
Definition get_width (box : DOMRect.t) : M number :=
  updateText box true ;;
  w <- current ;;
  ret (Math.abs (Sprite.scale_x (sprite w)) * Rectangle.width (Texture.orig (texture w))).

(** [set width(value)], index.js 323-331. *)
Definition set_width (value : number) (box : DOMRect.t) : M unit :=
  updateText box true ;;
  w <- current ;;
  let s := or_else (sign (Sprite.scale_x (sprite w))) 1 in
  modify (with_sprite (Sprite.set_scale_x
    (s * value / Rectangle.width (Texture.orig (texture w))))) ;;
  modify (with_sprite (Sprite.set__width value)).

(** [get height()], index.js 337-342. *)
Definition get_height (box : DOMRect.t) : M number :=
  updateText box true ;;
  w <- current ;;
  ret (Math.abs (Sprite.scale_y (sprite w)) * Rectangle.height (Texture.orig (texture w))).

(** [set height(value)], index.js 344-352. *)
Definition set_height (value : number) (box : DOMRect.t) : M unit :=
  updateText box true ;;
  w <- current ;;
  let s := or_else (sign (Sprite.scale_y (sprite w))) 1 in
  modify (with_sprite (Sprite.set_scale_y
    (s * value / Rectangle.height (Texture.orig (texture w))))) ;;
  modify (with_sprite (Sprite.set__height value)).

(** The browser delivers [load] to the image: its [onload], if any, runs. *)
Definition fire_load (painted : option ImageData.t) : M unit :=
  w <- current ;;
  match Image.onload (imageEl w) with
  | Some closure => onload closure painted
  | None => ret tt
  end.

(** The browser delivers [error] to the image: the function held by
    [onerror], if any, runs. *)
Definition fire_error : M unit :=
  w <- current ;;
  match Image.onerror (imageEl w) with
  | Some closure => onload closure None
  | None => ret tt
  end.

(** [new HTMLText(text, style, canvas)], index.js 25-52. *)
Definition construct (text : Value) (style : TextStyle.t)
    (base : BaseTexture.t) (frame : Rectangle.t) (sprite0 : Sprite.t)
    (RESOLUTION : number) : World :=
  let canvas := Canvas.set_height 3 (Canvas.set_width 3 (Canvas.mk 0 0 None)) in
  let texture := Texture.mk Rectangle.empty Rectangle.empty frame base in
  let fields :=
    HTMLText.mk null null null obj obj obj obj RESOLUTION None None true false 0 false in
  let w0 := mkWorld fields sprite0 texture canvas Image.fresh Scratch.fresh [] in
  world_of ((set_text (match text with VUndefined => VString "" | v => v end) ;;
             set_style style ;;
             assign (HTMLText.set_localStyleID (-1))) w0).

Definition step (a : Action) : M unit :=
  match a with
  | SetText text => set_text text
  | SetStyle style => set_style style
  | MutateStyle padding trim => mutate_style padding trim
  | SetResolution value => set_resolution value
  | OnStyleChange => _onStyleChange
  | UpdateText box respectDirty => updateText box respectDirty
  | Render r box => _render r box
  | RenderCanvas r box => _renderCanvas r box
  | GetLocalBounds box => getLocalBounds box
  | CalculateBounds box => _calculateBounds box
  | GetWidth box => (get_width box ;; ret tt)
  | SetWidth value box => set_width value box
  | GetHeight box => (get_height box ;; ret tt)
  | SetHeight value box => set_height value box
  | Destroy => destroy
  | Load painted => fire_load painted
  | Error => fire_error
  end.

Fixpoint run (actions : list Action) (w : World) : World :=
  match actions with
  | [] => w
  | a :: rest => run rest (world_of (step a w))
  end.

End Members.

(** The instance has been constructed and not destroyed: every reference
    [updateText] follows is there. *)
Definition live (w : World) : bool :=
  match HTMLText._style (this w) with Some _ => true | None => false end
  && is_obj (HTMLText._parser (this w))
  && is_obj (HTMLText.canvas (this w))
  && is_obj (HTMLText.context (this w))
  && is_obj (HTMLText._image (this w)).

(** The document [updateText] would build from the text and the style of
    the instance parses to a [div]. *)
Definition parses {pixi : Pixi} (w : World) : bool :=
  match HTMLText._style (this w) with
  | Some style =>
      querySelector_div (SvgDocument.mk 2048 2048 (HTMLText._text (this w)) style)
  | None => false
  end.


End JS.

(** A host for the examples: [trimCanvas] returns the pixels the canvas
    holds; the base class rescales the sprite from [_width] and [_height]
    as [Sprite._onTextureUpdate] does; [setRealSize] resizes the base
    texture and gives the frame of the frameless texture its size;
    [destroy(true)] leaves no rectangle in the texture; and the XML parser
    is asked for plain text only, which it accepts when it holds neither
    [&] nor [<]. *)
#[export] Instance example_pixi : Pixi.
Proof.
  refine {|
    trimCanvas := fun c =>
      match Canvas.bitmap c with
      | Some d => Trimmed.mk (ImageData.width d) (ImageData.height d) (Some d)
      | None => Trimmed.mk (Canvas.width c) (Canvas.height c) None
      end;
    _onTextureUpdate := fun t s =>
      let s :=
        if Number.truthy (Sprite._width s)
        then Sprite.set_scale_x
               (sign (Sprite.scale_x s) * Sprite._width s
                / Rectangle.width (Texture.orig t)) s
        else s in
      if Number.truthy (Sprite._height s)
      then Sprite.set_scale_y
             (sign (Sprite.scale_y s) * Sprite._height s
              / Rectangle.height (Texture.orig t)) s
      else s;
    setRealSize := fun realWidth realHeight resolution st =>
      let t := snd st in
      let resolution :=
        or_else resolution (BaseTexture.resolution (Texture.baseTexture t)) in
      (fst st,
       Texture.mk (Texture.orig t) (Texture.trim t)
         (Rectangle.mk (Rectangle.x (Texture._frame t)) (Rectangle.y (Texture._frame t))
                       (Number.of_Z realWidth / resolution)
                       (Number.of_Z realHeight / resolution))
         (BaseTexture.mk realWidth realHeight resolution));
    super_destroy := fun options st =>
      match options with
      | Some true =>
          (fst st,
           Texture.mk Rectangle.empty Rectangle.empty Rectangle.empty
                      (Texture.baseTexture (snd st)))
      | _ => st
      end;
    querySelector_div := fun svg =>
      match SvgDocument.innerHTML svg with
      | Some text => negb (Text.occurs "&" text) && negb (Text.occurs "<" text)
      | None => true
      end
  |}.
  - intros c H. rewrite H. reflexivity.
  - reflexivity.
  - reflexivity.
Defined.

(* ===================================================================== *)
(** * Example worlds *)
(* ===================================================================== *)

(** A style with padding 4 and no trimming, a bounding box of 10.5 by 7,
    and an instance of each revision built at resolution 2 with the text
    [Hi]. *)
Definition example_style : TextStyle.t := TextStyle.mk 0 4 false.
Definition example_box : DOMRect.t := DOMRect.mk 10.5 7.

Definition ts_fresh : World :=
  TS.construct (VString "Hi") example_style (BaseTexture.mk 3 3 1)
    (Rectangle.mk 0 0 3 3) (Sprite.mk 1 1 0 0) 2.

Definition js_fresh : World :=
  JS.construct (VString "Hi") example_style (BaseTexture.mk 3 3 1)
    (Rectangle.mk 0 0 3 3) (Sprite.mk 1 1 0 0) 2.

(** The same instances after their first render tick: a decode is pending. *)
Definition ts_decoding : World := TS.run [Render 2 example_box] ts_fresh.
Definition js_decoding : World := JS.run [Render 2 example_box] js_fresh.


(* ===================================================================== *)
(** * Further invariants *)
(* ===================================================================== *)

(** A text the setter can have stored: not empty, and with none of the
    three substrings [sanitiseText] replaces. *)
Definition sanitized (t : string) : bool :=
  negb (String.eqb t "")
  && negb (Text.occurs "<br>" t)
  && negb (Text.occurs "<hr>" t)
  && negb (Text.occurs "&nbsp;" t).

Definition holds_sanitized_text (w : World) : bool :=
  match HTMLText._text (this w) with
  | Some t => sanitized t
  | None => false
  end.

(** A pending [onload] finds what it dereferences: the style, the canvas
    and the image are still there, and nothing listens for [error]. *)
Definition handler_finds_instance (w : World) : Prop :=
  (Image.onload (imageEl w) <> None ->
   HTMLText._style (this w) <> None
   /\ HTMLText.canvas (this w) = obj
   /\ HTMLText._image (this w) = obj)
  /\ Image.onerror (imageEl w) = None.

(** The texture updates on record: one per completed decode in index.ts;
    one per requested and one per completed decode in index.js. *)
Definition ts_accounted (w : World) : Prop :=
  texture_updates w = decodes_completed w /\ handler_finds_instance w.

Definition js_accounted (w : World) : Prop :=
  texture_updates w = (decodes_requested w + decodes_completed w)%nat
  /\ handler_finds_instance w.


(** What [destroy] leaves and no member undoes: the canvas and the image
    are gone, and the style is gone or, once a new one is assigned, the
    instance is dirty. *)
Definition destroyed (w : World) : Prop :=
  HTMLText.canvas (this w) = null
  /\ HTMLText._image (this w) = null
  /\ (HTMLText._style (this w) = None \/ HTMLText.dirty (this w) = true).

Definition is_destroy (a : Action) : bool :=
  match a with Destroy => true | _ => false end.

(** Instances whose style asks for trimming, a decode pending. *)
Definition trimming_style : TextStyle.t := TextStyle.mk 0 4 true.

Definition ts_trimming : World :=
  TS.run [Render 2 example_box]
    (TS.construct (VString "Hi") trimming_style (BaseTexture.mk 3 3 1)
       (Rectangle.mk 0 0 3 3) (Sprite.mk 1 1 0 0) 2).

Definition js_trimming : World :=
  JS.run [Render 2 example_box]
    (JS.construct (VString "Hi") trimming_style (BaseTexture.mk 3 3 1)
       (Rectangle.mk 0 0 3 3) (Sprite.mk 1 1 0 0) 2).


(** Instances with a negative padding, a bounding box of 10 by 7 and
    resolution 1. *)
Definition cramped_style : TextStyle.t := TextStyle.mk 0 (-8) false.
Definition small_box : DOMRect.t := DOMRect.mk 10 7.

Definition ts_cramped : World :=
  TS.construct (VString "Hi") cramped_style (BaseTexture.mk 3 3 1)
    (Rectangle.mk 0 0 3 3) (Sprite.mk 1 1 0 0) 1.

Definition js_cramped : World :=
  JS.construct (VString "Hi") cramped_style (BaseTexture.mk 3 3 1)
    (Rectangle.mk 0 0 3 3) (Sprite.mk 1 1 0 0) 1.



(* ===================================================================== *)
(** * Facts about [sanitiseText] *)
(* ===================================================================== *)

Module TextFacts.
Import Text.

(** ** Unfolding equations of the two scanners *)

Lemma replace_from_drop pat rep k s :
  replace_from pat rep k s = replace pat rep (drop k s).
Proof.
  revert s; induction k as [|k IH]; intros s.
  - reflexivity.
  - destruct s as [|c s]; [reflexivity|]. simpl. apply IH.
Qed.

Lemma replace_hit pat rep c s :
  ci_prefix pat (String c s) = true ->
  replace pat rep (String c s)
  = rep ++ replace pat rep (drop (String.length pat - 1) s).
Proof.
  intros H. unfold replace at 1. simpl replace_from. rewrite H.
  now rewrite replace_from_drop.
Qed.

Lemma replace_miss pat rep c s :
  ci_prefix pat (String c s) = false ->
  replace pat rep (String c s) = String c (replace pat rep s).
Proof. intros H. unfold replace. simpl replace_from. now rewrite H. Qed.

Lemma self_closed_from_drop k s :
  self_closed_from k s = self_closed (drop k s).
Proof.
  revert s; induction k as [|k IH]; intros s.
  - reflexivity.
  - destruct s as [|c s]; [reflexivity|]. simpl. apply IH.
Qed.

Lemma drop_length k s : (String.length (drop k s) <= String.length s)%nat.
Proof.
  revert s; induction k as [|k IH]; intros [|c s]; simpl; try lia.
  specialize (IH s). lia.
Qed.

(** ** Case-insensitive comparison of single units *)

Lemma ci_eqb_sym a b : ci_eqb a b = ci_eqb b a.
Proof. unfold ci_eqb. apply Ascii.eqb_sym. Qed.

Lemma ci_eqb_lt c : ci_eqb "<" c = true -> c = "<"%char.
Proof.
  destruct c as [[] [] [] [] [] [] [] []]; vm_compute; intros H;
    try discriminate H; reflexivity.
Qed.

Lemma ci_eqb_gt c : ci_eqb ">" c = true -> c = ">"%char.
Proof.
  destruct c as [[] [] [] [] [] [] [] []]; vm_compute; intros H;
    try discriminate H; reflexivity.
Qed.

Lemma ci_eqb_amp c : ci_eqb "&" c = true -> c = "&"%char.
Proof.
  destruct c as [[] [] [] [] [] [] [] []]; vm_compute; intros H;
    try discriminate H; reflexivity.
Qed.

Lemma ci_eqb_semi c : ci_eqb ";" c = true -> c = ";"%char.
Proof.
  destruct c as [[] [] [] [] [] [] [] []]; vm_compute; intros H;
    try discriminate H; reflexivity.
Qed.

Ltac two_cases c :=
  destruct c as [[] [] [] [] [] [] [] []]; vm_compute; intros H;
  try discriminate H; auto.

Lemma ci_eqb_b c : ci_eqb "b" c = true -> c = "b"%char \/ c = "B"%char.
Proof. two_cases c. Qed.
Lemma ci_eqb_r c : ci_eqb "r" c = true -> c = "r"%char \/ c = "R"%char.
Proof. two_cases c. Qed.
Lemma ci_eqb_h c : ci_eqb "h" c = true -> c = "h"%char \/ c = "H"%char.
Proof. two_cases c. Qed.
Lemma ci_eqb_n c : ci_eqb "n" c = true -> c = "n"%char \/ c = "N"%char.
Proof. two_cases c. Qed.
Lemma ci_eqb_s c : ci_eqb "s" c = true -> c = "s"%char \/ c = "S"%char.
Proof. two_cases c. Qed.
Lemma ci_eqb_p c : ci_eqb "p" c = true -> c = "p"%char \/ c = "P"%char.
Proof. two_cases c. Qed.

(** ** The shape of a match *)

Ltac split_match H :=
  repeat match type of H with
         | (_ && _) = true => let H1 := fresh "Hc" in
                              apply andb_true_iff in H; destruct H as [H1 H]
         end.

Lemma br_match s :
  ci_prefix "<br>" s = true ->
  exists c2 c3 rest,
    s = String "<" (String c2 (String c3 (String ">" rest)))
    /\ (c2 = "b" \/ c2 = "B")%char /\ (c3 = "r" \/ c3 = "R")%char.
Proof.
  destruct s as [|c1 [|c2 [|c3 [|c4 rest]]]]; simpl; intros H;
    try discriminate H;
    try (rewrite ?andb_false_r in H; discriminate H).
  split_match H.
  apply ci_eqb_lt in Hc. apply ci_eqb_b in Hc0. apply ci_eqb_r in Hc1.
  apply ci_eqb_gt in Hc2. subst c1 c4. now exists c2, c3, rest.
Qed.

Lemma hr_match s :
  ci_prefix "<hr>" s = true ->
  exists c2 c3 rest,
    s = String "<" (String c2 (String c3 (String ">" rest)))
    /\ (c2 = "h" \/ c2 = "H")%char /\ (c3 = "r" \/ c3 = "R")%char.
Proof.
  destruct s as [|c1 [|c2 [|c3 [|c4 rest]]]]; simpl; intros H;
    try discriminate H;
    try (rewrite ?andb_false_r in H; discriminate H).
  split_match H.
  apply ci_eqb_lt in Hc. apply ci_eqb_h in Hc0. apply ci_eqb_r in Hc1.
  apply ci_eqb_gt in Hc2. subst c1 c4. now exists c2, c3, rest.
Qed.

Lemma nbsp_match s :
  ci_prefix "&nbsp;" s = true ->
  exists c2 c3 c4 c5 rest,
    s = String "&" (String c2 (String c3 (String c4 (String c5 (String ";" rest)))))
    /\ (c2 = "n" \/ c2 = "N")%char /\ (c3 = "b" \/ c3 = "B")%char
    /\ (c4 = "s" \/ c4 = "S")%char /\ (c5 = "p" \/ c5 = "P")%char.
Proof.
  destruct s as [|c1 [|c2 [|c3 [|c4 [|c5 [|c6 rest]]]]]]; simpl; intros H;
    try discriminate H;
    try (rewrite ?andb_false_r in H; discriminate H).
  split_match H.
  apply ci_eqb_amp in Hc. apply ci_eqb_n in Hc0. apply ci_eqb_b in Hc1.
  apply ci_eqb_s in Hc2. apply ci_eqb_p in Hc3. apply ci_eqb_semi in Hc4.
  subst c1 c6. now exists c2, c3, c4, c5, rest.
Qed.

(** ** A replacement does not disturb what a later pattern sees

    A pattern tail [t] none of whose units is the first unit of [pat] is a
    prefix of [replace pat rep s] exactly when it is a prefix of [s],
    provided [rep] starts like [pat]. *)

Fixpoint avoids (p0 : ascii) (t : string) : bool :=
  match t with
  | EmptyString => true
  | String a t' => negb (ci_eqb a p0) && avoids p0 t'
  end.

Lemma ci_eqb_trans_false a b c :
  ci_eqb a b = false -> ci_eqb b c = true -> ci_eqb a c = false.
Proof.
  unfold ci_eqb. intros H1 H2. apply Ascii.eqb_eq in H2. now rewrite <- H2.
Qed.

Lemma prefix_after_replace p0 pt r0 rt t :
  ci_eqb p0 r0 = true ->
  avoids p0 t = true ->
  forall s,
    ci_prefix t (replace (String p0 pt) (String r0 rt) s) = ci_prefix t s.
Proof.
  intros Hr. induction t as [|a t IH]; intros Ha s; [reflexivity|].
  simpl in Ha. apply andb_true_iff in Ha. destruct Ha as [Ha Ht].
  apply negb_true_iff in Ha.
  destruct s as [|c s]; [reflexivity|].
  destruct (ci_prefix (String p0 pt) (String c s)) eqn:E.
  - rewrite replace_hit by exact E.
    simpl in E. apply andb_true_iff in E. destruct E as [E _].
    simpl. rewrite (ci_eqb_trans_false a p0 r0 Ha Hr).
    rewrite (ci_eqb_trans_false a p0 c Ha E). reflexivity.
  - rewrite replace_miss by exact E. simpl. f_equal. now apply IH.
Qed.

(** ** The three passes over one match *)

Ltac concrete :=
  repeat match goal with
         | H : _ \/ _ |- _ => destruct H
         end; subst; reflexivity.

Lemma passes_on_br s rest c2 c3 :
  s = String "<" (String c2 (String c3 (String ">" rest))) ->
  (c2 = "b" \/ c2 = "B")%char -> (c3 = "r" \/ c3 = "R")%char ->
  sanitiseText s = "<br/>" ++ sanitiseText rest.
Proof. intros -> H2 H3. unfold sanitiseText, replace. concrete. Qed.

Lemma passes_on_hr s rest c2 c3 :
  s = String "<" (String c2 (String c3 (String ">" rest))) ->
  (c2 = "h" \/ c2 = "H")%char -> (c3 = "r" \/ c3 = "R")%char ->
  sanitiseText s = "<hr/>" ++ sanitiseText rest.
Proof. intros -> H2 H3. unfold sanitiseText, replace. concrete. Qed.

Lemma passes_on_nbsp s rest c2 c3 c4 c5 :
  s = String "&" (String c2 (String c3 (String c4 (String c5 (String ";" rest))))) ->
  (c2 = "n" \/ c2 = "N")%char -> (c3 = "b" \/ c3 = "B")%char ->
  (c4 = "s" \/ c4 = "S")%char -> (c5 = "p" \/ c5 = "P")%char ->
  sanitiseText s = "&#160;" ++ sanitiseText rest.
Proof. intros -> H2 H3 H4 H5. unfold sanitiseText, replace. concrete. Qed.

Lemma passes_on_other c s :
  ci_prefix "<br>" (String c s) = false ->
  ci_prefix "<hr>" (String c s) = false ->
  ci_prefix "&nbsp;" (String c s) = false ->
  sanitiseText (String c s) = String c (sanitiseText s).
Proof.
  intros Hbr Hhr Hnb. unfold sanitiseText.
  rewrite (replace_miss "<br>") by exact Hbr.
  rewrite (replace_miss "<hr>").
  - rewrite (replace_miss "&nbsp;"); [reflexivity|].
    change (ci_prefix "&nbsp;" (String c ?x))
      with (ci_eqb "&" c && ci_prefix "nbsp;" x).
    rewrite !(prefix_after_replace "<"%char) by reflexivity.
    exact Hnb.
  - change (ci_prefix "<hr>" (String c ?x))
      with (ci_eqb "<" c && ci_prefix "hr>" x).
    rewrite (prefix_after_replace "<"%char) by reflexivity.
    exact Hhr.
Qed.

Lemma self_closed_step c s :
  self_closed (String c s) =
  if ci_prefix "<br>" (String c s) then "<br/>" ++ self_closed (drop 3 s)
  else if ci_prefix "<hr>" (String c s) then "<hr/>" ++ self_closed (drop 3 s)
  else if ci_prefix "&nbsp;" (String c s) then "&#160;" ++ self_closed (drop 5 s)
  else String c (self_closed s).
Proof.
  unfold self_closed at 1. cbn [self_closed_from].
  now rewrite !self_closed_from_drop.
Qed.

Lemma sanitise_bounded n :
  forall s, (String.length s <= n)%nat -> sanitiseText s = self_closed s.
Proof.
  induction n as [|n IH]; intros s Hn.
  - destruct s; [reflexivity | simpl in Hn; lia].
  - destruct s as [|c s]; [reflexivity|].
    rewrite self_closed_step.
    destruct (ci_prefix "<br>" (String c s)) eqn:Ebr.
    { destruct (br_match _ Ebr) as (c2 & c3 & rest & Hs & H2 & H3).
      rewrite (passes_on_br _ _ _ _ Hs H2 H3).
      injection Hs as -> ->. cbn [drop].
      rewrite IH; [reflexivity | simpl in Hn; lia]. }
    destruct (ci_prefix "<hr>" (String c s)) eqn:Ehr.
    { destruct (hr_match _ Ehr) as (c2 & c3 & rest & Hs & H2 & H3).
      rewrite (passes_on_hr _ _ _ _ Hs H2 H3).
      injection Hs as -> ->. cbn [drop].
      rewrite IH; [reflexivity | simpl in Hn; lia]. }
    destruct (ci_prefix "&nbsp;" (String c s)) eqn:Enb.
    { destruct (nbsp_match _ Enb) as (c2 & c3 & c4 & c5 & rest & Hs & H2 & H3 & H4 & H5).
      rewrite (passes_on_nbsp _ _ _ _ _ _ Hs H2 H3 H4 H5).
      injection Hs as -> ->. cbn [drop].
      rewrite IH; [reflexivity | simpl in Hn; lia]. }
    rewrite passes_on_other by assumption.
    rewrite IH; [reflexivity | simpl in Hn; lia].
Qed.

Lemma sanitise_is_self_closed s : sanitiseText s = self_closed s.
Proof. apply (sanitise_bounded (String.length s)). lia. Qed.

(** ** Nothing is left to replace *)

Lemma prefix_after_sanitise t s :
  avoids "<" t = true -> avoids "&" t = true ->
  ci_prefix t (sanitiseText s) = ci_prefix t s.
Proof.
  intros Hlt Hamp. unfold sanitiseText.
  rewrite (prefix_after_replace "&"%char) by (reflexivity || assumption).
  rewrite !(prefix_after_replace "<"%char) by (reflexivity || assumption).
  reflexivity.
Qed.

Lemma occurs_step p c s :
  occurs p (String c s) = ci_prefix p (String c s) || occurs p s.
Proof. reflexivity. Qed.

Lemma occurs_past_replacement p X :
  p = "<br>" \/ p = "<hr>" \/ p = "&nbsp;" ->
  occurs p ("<br/>" ++ X) = occurs p X
  /\ occurs p ("<hr/>" ++ X) = occurs p X
  /\ occurs p ("&#160;" ++ X) = occurs p X.
Proof. intros [-> | [-> | ->]]; repeat split; reflexivity. Qed.

Lemma head_after_self_closed p0 pt c s :
  avoids "<" pt = true -> avoids "&" pt = true ->
  ci_prefix (String p0 pt) (String c s) = false ->
  ci_prefix (String p0 pt) (String c (self_closed s)) = false.
Proof.
  intros Hlt Hamp H. cbn [ci_prefix] in *.
  rewrite <- sanitise_is_self_closed, prefix_after_sanitise by assumption.
  exact H.
Qed.

Lemma self_closed_clean n p :
  p = "<br>" \/ p = "<hr>" \/ p = "&nbsp;" ->
  forall s, (String.length s <= n)%nat -> occurs p (self_closed s) = false.
Proof.
  intros Hp. induction n as [|n IH]; intros s Hn.
  - destruct s; [|simpl in Hn; lia].
    destruct Hp as [-> | [-> | ->]]; reflexivity.
  - destruct s as [|c s].
    { destruct Hp as [-> | [-> | ->]]; reflexivity. }
    simpl in Hn. rewrite self_closed_step.
    pose proof (drop_length 3 s) as H3. pose proof (drop_length 5 s) as H5.
    destruct (ci_prefix "<br>" (String c s)) eqn:Ebr.
    { rewrite (proj1 (occurs_past_replacement p _ Hp)). apply IH. lia. }
    destruct (ci_prefix "<hr>" (String c s)) eqn:Ehr.
    { rewrite (proj1 (proj2 (occurs_past_replacement p _ Hp))). apply IH. lia. }
    destruct (ci_prefix "&nbsp;" (String c s)) eqn:Enb.
    { rewrite (proj2 (proj2 (occurs_past_replacement p _ Hp))). apply IH. lia. }
    rewrite occurs_step, IH by lia. rewrite orb_false_r.
    destruct Hp as [-> | [-> | ->]];
      apply head_after_self_closed; reflexivity || assumption.
Qed.

Lemma nothing_left_to_replace s :
  occurs "<br>" (sanitiseText s) = false
  /\ occurs "<hr>" (sanitiseText s) = false
  /\ occurs "&nbsp;" (sanitiseText s) = false.
Proof.
  rewrite sanitise_is_self_closed.
  repeat split; apply (self_closed_clean (String.length s)); auto.
Qed.

(** ** A text with nothing to replace is returned as it is *)

Lemma self_closed_without_occurrence s :
  occurs "<br>" s = false -> occurs "<hr>" s = false ->
  occurs "&nbsp;" s = false ->
  self_closed s = s.
Proof.
  induction s as [|c s IH]; intros Hbr Hhr Hnb; [reflexivity|].
  rewrite occurs_step in Hbr, Hhr, Hnb.
  apply orb_false_iff in Hbr, Hhr, Hnb.
  destruct Hbr as [Hbr Hbr'], Hhr as [Hhr Hhr'], Hnb as [Hnb Hnb'].
  rewrite self_closed_step, Hbr, Hhr, Hnb. f_equal. now apply IH.
Qed.

End TextFacts.

(* ===================================================================== *)
(** * Running a method symbolically *)
(* ===================================================================== *)

(** Unfold the monad and the field updates, reduce the projections that
    meet a constructor, and touch nothing of the arithmetic. *)
Ltac run_monad :=
  cbv [bind ret throw current modify field assign deref unwrap when
       with_this with_sprite with_texture with_sprite_texture with_canvasEl
       with_imageEl with_scratch emit
       HTMLText.set__resolution HTMLText.set__text HTMLText.set__style
       HTMLText.set__autoResolution HTMLText.set__loading
       HTMLText.set_localStyleID HTMLText.set_dirty HTMLText.set_canvas
       HTMLText.set_context HTMLText.set__image HTMLText.set__parser
       HTMLText.set_nodes
       Image.set_src Image.set_onload
       Canvas.set_width Canvas.set_height Canvas.clearRect Canvas.drawImage
       Canvas.putImageData
       this sprite texture canvasEl imageEl scratch log
       HTMLText._domElement HTMLText._svgRoot HTMLText._foreignObject
       HTMLText._parser HTMLText._image HTMLText.canvas HTMLText.context
       HTMLText._resolution HTMLText._text HTMLText._style
       HTMLText._autoResolution HTMLText._loading HTMLText.localStyleID
       HTMLText.dirty] in *;
  cbn [world_of returned is_obj negb andb orb
       this sprite texture canvasEl imageEl scratch log
       HTMLText._domElement HTMLText._svgRoot HTMLText._foreignObject
       HTMLText._parser HTMLText._image HTMLText.canvas HTMLText.context
       HTMLText._resolution HTMLText._text HTMLText._style
       HTMLText._autoResolution HTMLText._loading HTMLText.localStyleID
       HTMLText.dirty
       Image.src Image.onload Image.onerror
       Canvas.width Canvas.height Canvas.bitmap
       Texture.orig Texture.trim Texture._frame Texture.baseTexture
       Rectangle.x Rectangle.y Rectangle.width Rectangle.height
       BaseTexture.realWidth BaseTexture.realHeight BaseTexture.resolution
       TextStyle.styleID TextStyle.padding TextStyle.trim
       Trimmed.width Trimmed.height Trimmed.data
       Scratch.innerHTML Scratch.style Scratch.svg_width Scratch.svg_height] in *.

Ltac open_world w :=
  let h := fresh "h" in
  destruct w as [h ? ? ? ? ? ?]; destruct h.

(** Split on whatever a hypothesis, or the goal, still branches on. *)
Ltac branch_in H :=
  repeat match type of H with
         | context [match ?x with _ => _ end] =>
             lazymatch x with
             | context [match _ with _ => _ end] => fail
             | _ => destruct x eqn:?
             end
         end.

Ltac branch :=
  repeat match goal with
         | |- context [match ?x with _ => _ end] =>
             lazymatch x with
             | context [match _ with _ => _ end] => fail
             | _ => destruct x eqn:?
             end
         end.

(** The scrutinee the evaluation of [t] is waiting for. *)
Ltac app_head t := lazymatch t with ?f _ => app_head f | _ => t end.
Ltac scrutinee t :=
  let h := app_head t in
  lazymatch h with
  | match ?x with _ => _ end => scrutinee x
  | _ => t
  end.

(** One step of [H : call = outcome]: split on the next test. *)
Ltac step_in H :=
  lazymatch type of H with
  | ?lhs = _ =>
      let d := scrutinee lhs in
      lazymatch d with
      | lhs => fail "evaluated"
      | _ => destruct d eqn:?; cbv beta iota in H
      end
  end.

(** A test came out against what is known of it. *)
Ltac against_the_facts :=
  match goal with
  | Hx : false = true |- _ => discriminate Hx
  | Hx : true = false |- _ => discriminate Hx
  end.

(** Every path of [H : call = outcome], each ending in an explicit world. *)
Ltac exec H :=
  run_monad;
  repeat (step_in H; try discriminate H; try against_the_facts; run_monad).

(** Name the outcome of the call in the goal and follow every path. *)
Ltac outcome_of call :=
  let o := fresh "o" in
  let H := fresh "Hcall" in
  remember call as o eqn:H; symmetry in H.

(** Use what is known of the boolean fields before following the paths. *)
Ltac subst_flags :=
  repeat match goal with
         | Hx : ?v = true |- _ => is_var v; subst v
         | Hx : ?v = false |- _ => is_var v; subst v
         end.

(** Destructure [H : live w = true] into its references. *)
Ltac use_live H :=
  repeat (match type of H with
          | context [is_obj ?r] => is_var r; destruct r
          | context [match ?s with _ => _ end] => is_var s; destruct s
          end; cbn [is_obj andb] in H; try discriminate H).

(** Close a path that contradicts [H : stale w = _]. *)
Ltac settle H :=
  repeat match goal with v : bool |- _ => destruct v end;
  cbn [negb andb orb] in *;
  repeat match goal with
         | E : ?t = _ |- _ =>
             tryif constr_eq E H then fail
             else (lazymatch t with true => fail | false => fail | _ => idtac end;
                   match type of H with context [t] => rewrite E in H end)
         end;
  cbn [negb andb orb] in H; try congruence.

(** Close a path from the flags and the hypotheses at hand. *)
Ltac finish :=
  repeat match goal with v : bool |- _ => destruct v end;
  cbn [negb andb orb] in *;
  try solve [intuition (try congruence; try lia)].

Ltac counts :=
  cbv [measurements decodes_requested decodes_completed texture_updates] in *;
  cbn [log filter is_measured is_decode is_drawn is_texture_update List.length] in *.

Module SetterFacts.

Lemma set_text_unchanged text w :
  string_eq (HTMLText._text (this w)) (Text.sanitiseText (coerce text)) = true ->
  set_text text w = Returned tt w.
Proof.
  intros H. unfold set_text. open_world w. run_monad.
  rewrite H. reflexivity.
Qed.

Lemma set_text_changed text w :
  string_eq (HTMLText._text (this w)) (Text.sanitiseText (coerce text)) = false ->
  set_text text w
  = Returned tt
      (with_this (fun h => HTMLText.set_dirty true
                   (HTMLText.set__text (Some (Text.sanitiseText (coerce text))) h)) w).
Proof.
  intros H. unfold set_text. open_world w. run_monad.
  rewrite H. reflexivity.
Qed.

Lemma set_resolution_unchanged value w :
  strict_eq (HTMLText._resolution (this w)) value = true ->
  set_resolution value w
  = Returned tt (with_this (HTMLText.set__autoResolution false) w).
Proof.
  intros H. unfold set_resolution. open_world w. run_monad.
  rewrite H. reflexivity.
Qed.

Lemma set_resolution_changed value w :
  strict_eq (HTMLText._resolution (this w)) value = false ->
  set_resolution value w
  = Returned tt
      (with_this (fun h => HTMLText.set_dirty true
                   (HTMLText.set__resolution value
                      (HTMLText.set__autoResolution false h))) w).
Proof.
  intros H. unfold set_resolution. open_world w. run_monad.
  rewrite H. reflexivity.
Qed.

End SetterFacts.

(* ===================================================================== *)
(** * Facts about the TypeScript revision *)
(* ===================================================================== *)

Module TSFacts.
Section WithHost.
Context {pixi : Pixi}.

Ltac unfold_members H :=
  unfold TS.step, TS._render, TS._renderCanvas, TS.getLocalBounds,
    TS._calculateBounds, TS.get_width, TS.set_width, TS.get_height,
    TS.set_height, TS.destroy, TS.fire_load, TS.fire_error, TS.onload,
    TS.updateText, TS.updateTexture, set_text, set_style, mutate_style,
    set_resolution, _onStyleChange, follow_renderer in H.

(** Follow every path of the call whose world the goal speaks of. *)
Ltac all_paths w :=
  match goal with
  | |- context [world_of ?call] =>
      let o := fresh "o" in
      let H := fresh "Hcall" in
      remember call as o eqn:H; symmetry in H;
      unfold_members H; open_world w; run_monad; subst_flags;
      exec H; subst o; run_monad
  end.

(** Follow every path of the call in [H : call = outcome]. *)
Ltac paths_of H w :=
  unfold_members H; open_world w; run_monad; subst_flags; exec H.

(** ** The automatic resolution *)

(** No member switches the automatic resolution back on. *)
Lemma ts_auto_stays_off a w :
  HTMLText._autoResolution (this w) = false ->
  HTMLText._autoResolution (this (world_of (TS.step a w))) = false.
Proof.
  intros Hoff. destruct a; all_paths w; assumption || reflexivity.
Qed.

Lemma ts_auto_stays_off_run actions : forall w,
  HTMLText._autoResolution (this w) = false ->
  HTMLText._autoResolution (this (TS.run actions w)) = false.
Proof.
  induction actions as [|a rest IH]; intros w Hoff; [exact Hoff|].
  cbn [TS.run]. apply IH. now apply ts_auto_stays_off.
Qed.

(** With the automatic resolution off, a render pass leaves the resolution
    alone. *)
Lemma ts_render_keeps_resolution r box w :
  HTMLText._autoResolution (this w) = false ->
  HTMLText._resolution (this (world_of (TS._render r box w)))
  = HTMLText._resolution (this w).
Proof. intros Hoff. all_paths w; reflexivity || discriminate. Qed.

Lemma ts_renderCanvas_keeps_resolution r box w :
  HTMLText._autoResolution (this w) = false ->
  HTMLText._resolution (this (world_of (TS._renderCanvas r box w)))
  = HTMLText._resolution (this w).
Proof. intros Hoff. all_paths w; reflexivity || discriminate. Qed.

(** ** The single decode *)




Lemma ts_pass_skipped box w :
  TS.live w = true -> stale w = false ->
  TS.updateText box true w = Returned tt w.
Proof.
  intros Hlive Hstale.
  destruct (TS.updateText box true w) as [[] w'|w'] eqn:H;
    unfold TS.live, stale in *; open_world w; run_monad; use_live Hlive;
    unfold TS.updateText in H; exec H;
    try (injection H as <-); try reflexivity; settle Hstale.
Qed.

(** ** Coherence of the bookkeeping *)

Lemma ts_coherent_step a w :
  coherent HTMLText._domElement w -> coherent HTMLText._domElement (world_of (TS.step a w)).
Proof.
  unfold coherent, pending. intros (Hcount & Hload & Herr & Himg).
  destruct a; all_paths w; counts; finish.
Qed.

Lemma ts_coherent_run actions : forall w,
  coherent HTMLText._domElement w -> coherent HTMLText._domElement (TS.run actions w).
Proof.
  induction actions as [|a rest IH]; intros w Hw; [exact Hw|].
  cbn [TS.run]. apply IH. now apply ts_coherent_step.
Qed.

Lemma ts_coherent_construct text style base frame sprite0 RESOLUTION :
  coherent HTMLText._domElement (TS.construct text style base frame sprite0 RESOLUTION).
Proof.
  unfold TS.construct, set_text, set_style, coherent, pending.
  match goal with |- context [world_of ?call] => remember call as o eqn:H; symmetry in H end.
  exec H; subst o; run_monad; counts; cbv [Image.fresh]; run_monad;
    repeat split; try reflexivity; try discriminate; try congruence.
Qed.

(** ** A decode that fails *)

(** With a decode pending and no [load] delivered, nothing moves: [_loading]
    stays set, no decode is requested, the texture is not touched. *)
Lemma ts_stuck_step a w :
  is_load a = false ->
  HTMLText._loading (this w) = true ->
  Image.onerror (imageEl w) = None ->
  let w' := world_of (TS.step a w) in
  HTMLText._loading (this w') = true
  /\ Image.onerror (imageEl w') = None
  /\ decodes_requested w' = decodes_requested w
  /\ decodes_completed w' = decodes_completed w
  /\ texture_updates w' = texture_updates w
  /\ (is_destroy a = false -> texture w' = texture w).
Proof.
  intros Hnot Hbusy Herr w'. subst w'.
  destruct a; try discriminate Hnot; all_paths w; counts;
    repeat split; try (intros Hkeep; try discriminate Hkeep);
    reflexivity || assumption || discriminate.
Qed.

Lemma ts_stuck_run actions : forall w,
  forallb (fun a => negb (is_load a)) actions = true ->
  HTMLText._loading (this w) = true ->
  Image.onerror (imageEl w) = None ->
  let w' := TS.run actions w in
  HTMLText._loading (this w') = true
  /\ Image.onerror (imageEl w') = None
  /\ decodes_requested w' = decodes_requested w
  /\ decodes_completed w' = decodes_completed w
  /\ texture_updates w' = texture_updates w
  /\ (forallb (fun a => negb (is_destroy a)) actions = true -> texture w' = texture w).
Proof.
  induction actions as [|a rest IH]; intros w Hall Hbusy Herr.
  - cbn. auto 7.
  - cbn [forallb] in Hall. apply andb_true_iff in Hall. destruct Hall as [Ha Hrest].
    apply negb_true_iff in Ha.
    destruct (ts_stuck_step a w Ha Hbusy Herr) as (H1 & H2 & H3 & H4 & H5 & H6).
    destruct (IH _ Hrest H1 H2) as (K1 & K2 & K3 & K4 & K5 & K6).
    cbn [TS.run]. repeat split; try congruence.
    cbn [forallb]. intros Hkeep. apply andb_true_iff in Hkeep as [Hk Hks].
    apply negb_true_iff in Hk. rewrite (K6 Hks). exact (H6 Hk).
Qed.

(** ** The size of the canvas after a pass *)

Lemma ts_pass_sizes box respectDirty w w' style :
  TS.updateText box respectDirty w = Returned tt w' ->
  measurements w' = S (measurements w) ->
  HTMLText._style (this w) = Some style ->
  Canvas.width (canvasEl w')
  = Canvas.unsigned_long 300 (Number.integer_part (Math.ceil ((Math.max 1 (Math.ceil (DOMRect.width box)) + TextStyle.padding style * 2) * HTMLText._resolution (this w))))
  /\ Canvas.height (canvasEl w')
     = Canvas.unsigned_long 150 (Number.integer_part (Math.ceil ((Math.max 1 (Math.ceil (DOMRect.height box)) + TextStyle.padding style * 2) * HTMLText._resolution (this w)))).
Proof.
  intros H Hm Hs. unfold TS.updateText, TS.updateTexture in H.
  open_world w. run_monad. subst. exec H; injection H as <-; counts;
    try (exfalso; lia); run_monad; try (split; reflexivity).
  all: match goal with
       | E : Trimmed.data (trimCanvas ?c) = Some _ |- _ =>
           rewrite (trimCanvas_transparent c eq_refl) in E; discriminate E
       end.
Qed.

(** ** The texture after [updateTexture] *)

Lemma ts_texture_after_update w w' style :
  TS.updateTexture w = Returned tt w' ->
  HTMLText._style (this w) = Some style ->
  let padding := if TextStyle.trim style then 0 else TextStyle.padding style in
  let width := Number.of_Z (Canvas.width (canvasEl w')) / HTMLText._resolution (this w) in
  let height := Number.of_Z (Canvas.height (canvasEl w')) / HTMLText._resolution (this w) in
  let written :=
    Texture.mk
      (Rectangle.mk (Rectangle.x (Texture.orig (texture w)))
                    (Rectangle.y (Texture.orig (texture w)))
                    (width - padding * 2) (height - padding * 2))
      (Rectangle.mk (- padding) (- padding) width height)
      (Rectangle.mk (Rectangle.x (Texture._frame (texture w)))
                    (Rectangle.y (Texture._frame (texture w))) width height)
      (Texture.baseTexture (texture w)) in
  texture w'
  = snd (setRealSize (Canvas.width (canvasEl w')) (Canvas.height (canvasEl w'))
           (HTMLText._resolution (this w))
           (_onTextureUpdate written (sprite w), written))
  /\ Texture.trim (texture w') = Rectangle.mk (- padding) (- padding) width height
  /\ Texture.orig (texture w')
     = Rectangle.mk (Rectangle.x (Texture.orig (texture w)))
                    (Rectangle.y (Texture.orig (texture w)))
                    (width - padding * 2) (height - padding * 2)
  /\ HTMLText._resolution (this w') = HTMLText._resolution (this w)
  /\ HTMLText.dirty (this w') = false.
Proof.
  intros H Hs. unfold TS.updateTexture in H.
  open_world w. run_monad. subst. exec H; injection H as <-; run_monad;
    rewrite ?setRealSize_trim, ?setRealSize_orig; repeat split; reflexivity.
Qed.

(** ** Destroying *)

Lemma ts_destroy_detaches w :
  TS.live w = true ->
  exists w', TS.destroy w = Returned tt w'
             /\ Image.onload (imageEl w') = None
             /\ Image.src (imageEl w') = None
             /\ HTMLText._image (this w') = null.
Proof.
  intros Hlive. unfold TS.live in Hlive. open_world w. run_monad. use_live Hlive.
  eexists. unfold TS.destroy. run_monad. repeat split; reflexivity.
Qed.

(** With no [onload] and no [onerror] on the image, its events run nothing. *)
Lemma ts_detached_events_are_silent a w :
  Image.onload (imageEl w) = None ->
  Image.onerror (imageEl w) = None ->
  match a with Load _ | Error => True | _ => False end ->
  TS.step a w = Returned tt w.
Proof.
  intros Hl He Ha. destruct a; try contradiction;
    unfold TS.step, TS.fire_load, TS.fire_error; open_world w; run_monad;
    rewrite ?Hl, ?He; reflexivity.
Qed.

(** Had [destroy] left the handler on the image, the decode completing after
    it would have thrown from [updateTexture], with [_loading] rewritten. *)
Lemma ts_attached_onload_after_destroy closure painted w w' :
  TS.destroy w = Returned tt w' ->
  exists w'', TS.onload closure painted w' = Thrown w''
              /\ HTMLText._loading (this w'') = false.
Proof.
  intros H. unfold TS.destroy in H. open_world w. exec H; injection H as <-.
  all: eexists; unfold TS.onload, TS.updateTexture; run_monad; split; reflexivity.
Qed.

(** ** A render tick on a dirty instance *)

Lemma ts_render_retries r box w :
  TS.live w = true -> HTMLText.dirty (this w) = true ->
  exists w', TS._render r box w = Returned tt w'
             /\ measurements w' = S (measurements w).
Proof.
  intros Hlive Hdirty.
  destruct (TS._render r box w) as [[] w'|w'] eqn:H.
  - exists w'. split; [reflexivity|].
    unfold TS.live in *. open_world w. run_monad. subst_flags. use_live Hlive.
    unfold TS._render, follow_renderer, TS.updateText, TS.updateTexture in H.
    exec H; injection H as <-; counts; reflexivity.
  - exfalso. unfold TS.live in *. open_world w. run_monad. subst_flags. use_live Hlive.
    unfold TS._render, follow_renderer, TS.updateText, TS.updateTexture in H.
    exec H.
Qed.

(** ** Reading [width] and [height] *)



(** With nothing stale the accessors run no pass. *)
Lemma ts_get_width_clean box w :
  TS.live w = true -> stale w = false ->
  exists v, TS.get_width box w = Returned v w.
Proof.
  intros Hlive Hstale. unfold TS.get_width, bind.
  rewrite (ts_pass_skipped box w Hlive Hstale).
  unfold TS.live in *. open_world w. run_monad. use_live Hlive.
  eexists. reflexivity.
Qed.

End WithHost.
End TSFacts.

(* ===================================================================== *)
(** * Facts about the JavaScript revision *)
(* ===================================================================== *)

Module JSFacts.
Section WithHost.
Context {pixi : Pixi}.

Ltac unfold_members H :=
  unfold JS.step, JS._render, JS._renderCanvas, JS.getLocalBounds,
    JS._calculateBounds, JS.get_width, JS.set_width, JS.get_height,
    JS.set_height, JS.destroy, JS.fire_load, JS.fire_error, JS.onload,
    JS.updateText, JS.updateTexture, set_text, set_style, mutate_style,
    set_resolution, _onStyleChange, follow_renderer in H.

(** Follow every path of the call whose world the goal speaks of. *)
Ltac all_paths w :=
  match goal with
  | |- context [world_of ?call] =>
      let o := fresh "o" in
      let H := fresh "Hcall" in
      remember call as o eqn:H; symmetry in H;
      unfold_members H; open_world w; run_monad; subst_flags;
      exec H; subst o; run_monad
  end.

(** Follow every path of the call in [H : call = outcome]. *)
Ltac paths_of H w :=
  unfold_members H; open_world w; run_monad; subst_flags; exec H.

(** ** The automatic resolution *)

(** No member switches the automatic resolution back on. *)
Lemma js_auto_stays_off a w :
  HTMLText._autoResolution (this w) = false ->
  HTMLText._autoResolution (this (world_of (JS.step a w))) = false.
Proof.
  intros Hoff. destruct a; all_paths w; assumption || reflexivity.
Qed.

Lemma js_auto_stays_off_run actions : forall w,
  HTMLText._autoResolution (this w) = false ->
  HTMLText._autoResolution (this (JS.run actions w)) = false.
Proof.
  induction actions as [|a rest IH]; intros w Hoff; [exact Hoff|].
  cbn [JS.run]. apply IH. now apply js_auto_stays_off.
Qed.

(** With the automatic resolution off, a render pass leaves the resolution
    alone. *)
Lemma js_render_keeps_resolution r box w :
  HTMLText._autoResolution (this w) = false ->
  HTMLText._resolution (this (world_of (JS._render r box w)))
  = HTMLText._resolution (this w).
Proof. intros Hoff. all_paths w; reflexivity || discriminate. Qed.

Lemma js_renderCanvas_keeps_resolution r box w :
  HTMLText._autoResolution (this w) = false ->
  HTMLText._resolution (this (world_of (JS._renderCanvas r box w)))
  = HTMLText._resolution (this w).
Proof. intros Hoff. all_paths w; reflexivity || discriminate. Qed.

(** ** The single decode *)



(** A live and stale instance runs the pass: [updateText(true)] returns and
    measures once. *)
Lemma js_pass_runs box w :
  JS.live w = true -> JS.parses w = true -> stale w = true ->
  exists w', JS.updateText box true w = Returned tt w'
             /\ measurements w' = S (measurements w).
Proof.
  intros Hlive Hparses Hstale.
  destruct (JS.updateText box true w) as [[] w'|w'] eqn:H.
  - exists w'. split; [reflexivity|].
    unfold JS.live, JS.parses, stale in *. open_world w. run_monad. use_live Hlive.
    unfold JS.updateText, JS.updateTexture in H. exec H; injection H as <-; counts; try reflexivity; settle Hstale.
  - exfalso. unfold JS.live, JS.parses, stale in *. open_world w. run_monad.
    use_live Hlive.
    unfold JS.updateText, JS.updateTexture in H. exec H.
Qed.

Lemma js_pass_skipped box w :
  JS.live w = true -> stale w = false ->
  JS.updateText box true w = Returned tt w.
Proof.
  intros Hlive Hstale.
  destruct (JS.updateText box true w) as [[] w'|w'] eqn:H;
    unfold JS.live, stale in *; open_world w; run_monad; use_live Hlive;
    unfold JS.updateText, JS.updateTexture in H; exec H;
    try (injection H as <-); try reflexivity; settle Hstale.
Qed.

(** ** Coherence of the bookkeeping *)

Lemma js_coherent_step a w :
  coherent HTMLText._parser w -> coherent HTMLText._parser (world_of (JS.step a w)).
Proof.
  unfold coherent, pending. intros (Hcount & Hload & Herr & Himg).
  destruct a; all_paths w; counts; finish.
Qed.

Lemma js_coherent_run actions : forall w,
  coherent HTMLText._parser w -> coherent HTMLText._parser (JS.run actions w).
Proof.
  induction actions as [|a rest IH]; intros w Hw; [exact Hw|].
  cbn [JS.run]. apply IH. now apply js_coherent_step.
Qed.

Lemma js_coherent_construct text style base frame sprite0 RESOLUTION :
  coherent HTMLText._parser (JS.construct text style base frame sprite0 RESOLUTION).
Proof.
  unfold JS.construct, set_text, set_style, coherent, pending.
  match goal with |- context [world_of ?call] => remember call as o eqn:H; symmetry in H end.
  exec H; subst o; run_monad; counts; cbv [Image.fresh]; run_monad;
    repeat split; try reflexivity; try discriminate; try congruence.
Qed.

(** ** A decode that fails *)

(** With a decode pending and no [load] delivered, nothing moves: [_loading]
    stays set, no decode is requested, the texture is not touched. *)
Lemma js_stuck_step a w :
  is_load a = false ->
  HTMLText._loading (this w) = true ->
  Image.onerror (imageEl w) = None ->
  let w' := world_of (JS.step a w) in
  HTMLText._loading (this w') = true
  /\ Image.onerror (imageEl w') = None
  /\ decodes_requested w' = decodes_requested w
  /\ decodes_completed w' = decodes_completed w
  /\ texture_updates w' = texture_updates w
  /\ (is_destroy a = false -> texture w' = texture w).
Proof.
  intros Hnot Hbusy Herr w'. subst w'.
  destruct a; try discriminate Hnot; all_paths w; counts;
    repeat split; try (intros Hkeep; try discriminate Hkeep);
    reflexivity || assumption || discriminate.
Qed.

Lemma js_stuck_run actions : forall w,
  forallb (fun a => negb (is_load a)) actions = true ->
  HTMLText._loading (this w) = true ->
  Image.onerror (imageEl w) = None ->
  let w' := JS.run actions w in
  HTMLText._loading (this w') = true
  /\ Image.onerror (imageEl w') = None
  /\ decodes_requested w' = decodes_requested w
  /\ decodes_completed w' = decodes_completed w
  /\ texture_updates w' = texture_updates w
  /\ (forallb (fun a => negb (is_destroy a)) actions = true -> texture w' = texture w).
Proof.
  induction actions as [|a rest IH]; intros w Hall Hbusy Herr.
  - cbn. auto 7.
  - cbn [forallb] in Hall. apply andb_true_iff in Hall. destruct Hall as [Ha Hrest].
    apply negb_true_iff in Ha.
    destruct (js_stuck_step a w Ha Hbusy Herr) as (H1 & H2 & H3 & H4 & H5 & H6).
    destruct (IH _ Hrest H1 H2) as (K1 & K2 & K3 & K4 & K5 & K6).
    cbn [JS.run]. repeat split; try congruence.
    cbn [forallb]. intros Hkeep. apply andb_true_iff in Hkeep as [Hk Hks].
    apply negb_true_iff in Hk. rewrite (K6 Hks). exact (H6 Hk).
Qed.

(** ** The size of the canvas after a pass *)

Lemma js_pass_sizes box respectDirty w w' style :
  JS.updateText box respectDirty w = Returned tt w' ->
  measurements w' = S (measurements w) ->
  HTMLText._style (this w) = Some style ->
  Canvas.width (canvasEl w')
  = Canvas.unsigned_long 300 (Number.integer_part (Math.ceil ((Math.max 1 (DOMRect.width box) + TextStyle.padding style * 2) * HTMLText._resolution (this w))))
  /\ Canvas.height (canvasEl w')
     = Canvas.unsigned_long 150 (Number.integer_part (Math.ceil ((Math.max 1 (DOMRect.height box) + TextStyle.padding style * 2) * HTMLText._resolution (this w)))).
Proof.
  intros H Hm Hs. unfold JS.updateText, JS.updateTexture in H.
  open_world w. run_monad. subst. exec H; injection H as <-; counts;
    try (exfalso; lia); run_monad; try (split; reflexivity).
  all: match goal with
       | E : Trimmed.data (trimCanvas ?c) = Some _ |- _ =>
           rewrite (trimCanvas_transparent c eq_refl) in E; discriminate E
       end.
Qed.

(** ** The texture after [updateTexture] *)

Lemma js_texture_after_update w w' style :
  JS.updateTexture w = Returned tt w' ->
  HTMLText._style (this w) = Some style ->
  let padding := if TextStyle.trim style then 0 else TextStyle.padding style in
  let width := Math.ceil (Number.of_Z (Canvas.width (canvasEl w')) / HTMLText._resolution (this w)) in
  let height := Math.ceil (Number.of_Z (Canvas.height (canvasEl w')) / HTMLText._resolution (this w)) in
  let written :=
    Texture.mk
      (Rectangle.mk (Rectangle.x (Texture.orig (texture w)))
                    (Rectangle.y (Texture.orig (texture w)))
                    (width - padding * 2) (height - padding * 2))
      (Rectangle.mk (- padding) (- padding) width height)
      (Rectangle.mk (Rectangle.x (Texture._frame (texture w)))
                    (Rectangle.y (Texture._frame (texture w))) width height)
      (Texture.baseTexture (texture w)) in
  texture w'
  = snd (setRealSize (Canvas.width (canvasEl w')) (Canvas.height (canvasEl w'))
           (HTMLText._resolution (this w))
           (_onTextureUpdate written (sprite w), written))
  /\ Texture.trim (texture w') = Rectangle.mk (- padding) (- padding) width height
  /\ Texture.orig (texture w')
     = Rectangle.mk (Rectangle.x (Texture.orig (texture w)))
                    (Rectangle.y (Texture.orig (texture w)))
                    (width - padding * 2) (height - padding * 2)
  /\ HTMLText._resolution (this w') = HTMLText._resolution (this w)
  /\ HTMLText.dirty (this w') = false.
Proof.
  intros H Hs. unfold JS.updateTexture in H.
  open_world w. run_monad. subst. exec H; injection H as <-; run_monad;
    rewrite ?setRealSize_trim, ?setRealSize_orig; repeat split; reflexivity.
Qed.

(** ** Destroying *)

Lemma js_destroy_detaches w :
  JS.live w = true ->
  exists w', JS.destroy w = Returned tt w'
             /\ Image.onload (imageEl w') = None
             /\ Image.src (imageEl w') = None
             /\ HTMLText._image (this w') = null.
Proof.
  intros Hlive. unfold JS.live in Hlive. open_world w. run_monad. use_live Hlive.
  eexists. unfold JS.destroy. run_monad. repeat split; reflexivity.
Qed.

(** With no [onload] and no [onerror] on the image, its events run nothing. *)
Lemma js_detached_events_are_silent a w :
  Image.onload (imageEl w) = None ->
  Image.onerror (imageEl w) = None ->
  match a with Load _ | Error => True | _ => False end ->
  JS.step a w = Returned tt w.
Proof.
  intros Hl He Ha. destruct a; try contradiction;
    unfold JS.step, JS.fire_load, JS.fire_error; open_world w; run_monad;
    rewrite ?Hl, ?He; reflexivity.
Qed.

(** Had [destroy] left the handler on the image, the decode completing after
    it would have thrown from [updateTexture], with [_loading] rewritten. *)
Lemma js_attached_onload_after_destroy closure painted w w' :
  JS.destroy w = Returned tt w' ->
  exists w'', JS.onload closure painted w' = Thrown w''
              /\ HTMLText._loading (this w'') = false.
Proof.
  intros H. unfold JS.destroy in H. open_world w. exec H; injection H as <-.
  all: eexists; unfold JS.onload, JS.updateTexture; run_monad; split; reflexivity.
Qed.

(** ** A render tick on a dirty instance *)

Lemma js_render_retries r box w :
  JS.live w = true -> JS.parses w = true -> HTMLText.dirty (this w) = true ->
  exists w', JS._render r box w = Returned tt w'
             /\ measurements w' = S (measurements w).
Proof.
  intros Hlive Hparses Hdirty.
  destruct (JS._render r box w) as [[] w'|w'] eqn:H.
  - exists w'. split; [reflexivity|].
    unfold JS.live, JS.parses in *. open_world w. run_monad. subst_flags. use_live Hlive.
    unfold JS._render, follow_renderer, JS.updateText, JS.updateTexture in H.
    exec H; injection H as <-; counts; reflexivity.
  - exfalso. unfold JS.live, JS.parses in *. open_world w. run_monad. subst_flags. use_live Hlive.
    unfold JS._render, follow_renderer, JS.updateText, JS.updateTexture in H.
    exec H.
Qed.

(** ** Reading [width] and [height] *)



(** With nothing stale the accessors run no pass. *)
Lemma js_get_width_clean box w :
  JS.live w = true -> stale w = false ->
  exists v, JS.get_width box w = Returned v w.
Proof.
  intros Hlive Hstale. unfold JS.get_width, bind.
  rewrite (js_pass_skipped box w Hlive Hstale).
  unfold JS.live in *. open_world w. run_monad. use_live Hlive.
  eexists. reflexivity.
Qed.

End WithHost.
End JSFacts.

(* ===================================================================== *)
(** * The properties of the specification *)
(* ===================================================================== *)

(** ** What the canvas keeps of a size *)

(** An integer the [unsigned long] can hold is stored as it is. *)
Lemma unsigned_long_in_range (default v : Z) :
  (0 <= v <= 2147483647)%Z -> Canvas.unsigned_long default v = v.
Proof.
  intros Hv. unfold Canvas.unsigned_long.
  rewrite Z.mod_small by lia.
  destruct (Z.leb_spec v 2147483647); [reflexivity | lia].
Qed.

(** An integer that does not wrap into the range gives the default. *)
Lemma unsigned_long_out_of_range (default v : Z) :
  (2147483647 < v mod 2 ^ 32)%Z -> Canvas.unsigned_long default v = default.
Proof.
  intros Hv. unfold Canvas.unsigned_long.
  destruct (Z.leb_spec (v mod 2 ^ 32) 2147483647); [lia | reflexivity].
Qed.

(** A hypothesis at a concrete world holds by evaluation. *)
Ltac evaluated := vm_compute; repeat split; reflexivity.

(** ** C1 *)

(** C1, as amended.  After every completed rasterization pass of
    [updateText] (a call that returns and has measured), the canvas width
    is what the DOM keeps of
    [ceil((max(1, measuredWidth) + padding * 2) * resolution)]: the integer
    part of that number when it lies in 0 .. 2^31 - 1, and otherwise the
    [unsigned long] it converts to (300 when the integer, taken modulo
    2^32, is above 2^31 - 1).  The height is kept likewise from
    [ceil((max(1, measuredHeight) + padding * 2) * resolution)], with 150
    for 300.  The measured sizes are the ceiled sides of the bounding box
    in index.ts and the sides themselves in index.js. *)
Theorem C1_canvas_size_after_pass {pixi : Pixi} :
  forall (box : DOMRect.t) (respectDirty : bool) (w w' : World) (style : TextStyle.t),
    HTMLText._style (this w) = Some style ->
    measurements w' = S (measurements w) ->
    let padding := TextStyle.padding style in
    let resolution := HTMLText._resolution (this w) in
    let sized (measuredWidth measuredHeight : number) :=
      let width :=
        Number.integer_part
          (Math.ceil ((Math.max 1 measuredWidth + padding * 2) * resolution)) in
      let height :=
        Number.integer_part
          (Math.ceil ((Math.max 1 measuredHeight + padding * 2) * resolution)) in
      Canvas.width (canvasEl w') = Canvas.unsigned_long 300 width
      /\ Canvas.height (canvasEl w') = Canvas.unsigned_long 150 height
      /\ ((0 <= width <= 2147483647)%Z -> Canvas.width (canvasEl w') = width)
      /\ ((0 <= height <= 2147483647)%Z -> Canvas.height (canvasEl w') = height)
      /\ ((2147483647 < width mod 2 ^ 32)%Z -> Canvas.width (canvasEl w') = 300%Z)
      /\ ((2147483647 < height mod 2 ^ 32)%Z -> Canvas.height (canvasEl w') = 150%Z) in
    (TS.updateText box respectDirty w = Returned tt w' ->
     sized (Math.ceil (DOMRect.width box)) (Math.ceil (DOMRect.height box)))
    /\
    (JS.updateText box respectDirty w = Returned tt w' ->
     sized (DOMRect.width box) (DOMRect.height box)).
Proof.
  intros box respectDirty w w' style Hstyle Hmeasured padding resolution sized.
  subst sized padding resolution.
  split; intros Hcall; cbv beta zeta.
  - destruct (TSFacts.ts_pass_sizes box respectDirty w w' style Hcall Hmeasured Hstyle)
      as [Hw Hh].
    rewrite Hw, Hh. split; [reflexivity|]. split; [reflexivity|].
    split; [apply unsigned_long_in_range|]. split; [apply unsigned_long_in_range|].
    split; apply unsigned_long_out_of_range.
  - destruct (JSFacts.js_pass_sizes box respectDirty w w' style Hcall Hmeasured Hstyle)
      as [Hw Hh].
    rewrite Hw, Hh. split; [reflexivity|]. split; [reflexivity|].
    split; [apply unsigned_long_in_range|]. split; [apply unsigned_long_in_range|].
    split; apply unsigned_long_out_of_range.
Qed.

(** The first render tick of the example instances: 10.5 by 7 measured,
    padding 4, resolution 2. *)
Lemma C1_witness :
  (Canvas.width (canvasEl ts_decoding) = 38%Z
   /\ Canvas.height (canvasEl ts_decoding) = 30%Z)
  /\ (Canvas.width (canvasEl js_decoding) = 37%Z
      /\ Canvas.height (canvasEl js_decoding) = 30%Z).
Proof.
  assert (Hts : HTMLText._style (this ts_fresh) = Some example_style) by evaluated.
  assert (Hjs : HTMLText._style (this js_fresh) = Some example_style) by evaluated.
  assert (Mts : measurements ts_decoding = S (measurements ts_fresh)) by evaluated.
  assert (Mjs : measurements js_decoding = S (measurements js_fresh)) by evaluated.
  assert (Cts : TS.updateText example_box true ts_fresh = Returned tt ts_decoding)
    by evaluated.
  assert (Cjs : JS.updateText example_box true js_fresh = Returned tt js_decoding)
    by evaluated.
  destruct (proj1 (C1_canvas_size_after_pass (pixi := example_pixi)
                     example_box true ts_fresh ts_decoding example_style
                     Hts Mts) Cts) as (_ & _ & Wts & Ets & _).
  destruct (proj2 (C1_canvas_size_after_pass (pixi := example_pixi)
                     example_box true js_fresh js_decoding example_style
                     Hjs Mjs) Cjs) as (_ & _ & Wjs & Ejs & _).
  split; split.
  - rewrite Wts; [evaluated | vm_compute; split; discriminate].
  - rewrite Ets; [evaluated | vm_compute; split; discriminate].
  - rewrite Wjs; [evaluated | vm_compute; split; discriminate].
  - rewrite Ejs; [evaluated | vm_compute; split; discriminate].
Defined.

(** With a padding of -8, a bounding box of 10 by 7 and resolution 1 the
    formula gives -6 and -9; the canvas is 300 by 150. *)
Lemma C1_negative_padding_gives_the_default_size :
  exists w',
    TS.updateText small_box true ts_cramped = Returned tt w'
    /\ measurements w' = S (measurements ts_cramped)
    /\ Math.ceil ((Math.max 1 (Math.ceil (DOMRect.width small_box))
                   + TextStyle.padding cramped_style * 2)
                  * HTMLText._resolution (this ts_cramped)) = -6
    /\ Math.ceil ((Math.max 1 (Math.ceil (DOMRect.height small_box))
                   + TextStyle.padding cramped_style * 2)
                  * HTMLText._resolution (this ts_cramped)) = -9
    /\ Canvas.width (canvasEl w') = 300%Z
    /\ Canvas.height (canvasEl w') = 150%Z.
Proof.
  exists (world_of (TS.updateText small_box true ts_cramped)). evaluated.
Qed.

(** Without trimming, the decode that completes leaves the canvas at the
    size the last pass gave it; with trimming, [updateTexture] shrinks it to
    the pixels [trimCanvas] found. *)
Lemma ts_load_keeps_untrimmed_size {pixi : Pixi} painted w style :
  HTMLText._style (this w) = Some style ->
  TextStyle.trim style = false ->
  let w' := world_of (TS.fire_load painted w) in
  Canvas.width (canvasEl w') = Canvas.width (canvasEl w)
  /\ Canvas.height (canvasEl w') = Canvas.height (canvasEl w).
Proof.
  intros Hs Ht w'. subst w'.
  match goal with |- context [world_of ?call] => remember call as o eqn:H; symmetry in H end.
  unfold TS.fire_load, TS.onload, TS.updateTexture in H.
  open_world w. run_monad. rewrite Hs in H. run_monad.
  repeat (step_in H; run_monad; rewrite ?Ht in H);
    subst o; run_monad; split; reflexivity.
Qed.

Lemma ts_load_trims {pixi : Pixi} painted w style closure data :
  TS.live w = true ->
  HTMLText._style (this w) = Some style ->
  TextStyle.trim style = true ->
  Image.onload (imageEl w) = Some closure ->
  let trimmed := trimCanvas (Canvas.drawImage painted (Canvas.clearRect (canvasEl w))) in
  Trimmed.data trimmed = Some data ->
  let w' := world_of (TS.fire_load painted w) in
  Canvas.width (canvasEl w') = Canvas.unsigned_long 300 (Trimmed.width trimmed)
  /\ Canvas.height (canvasEl w') = Canvas.unsigned_long 150 (Trimmed.height trimmed).
Proof.
  intros Hlive Hs Ht Hl trimmed Hd w'. subst w' trimmed.
  match goal with |- context [world_of ?call] => remember call as o eqn:H; symmetry in H end.
  unfold TS.fire_load, TS.onload, TS.updateTexture in H.
  unfold TS.live in Hlive. open_world w. run_monad.
  match type of Hs with ?v = _ => subst v end. use_live Hlive.
  rewrite Hl in H. run_monad. rewrite Ht in H. run_monad. rewrite Hd in H.
  exec H; subst o; run_monad; split; reflexivity.
Qed.

(** ** C2 *)

(** C2, as amended.  After every call of [updateTexture] that returns:
    [trim.x] and [trim.y] are [-padding], where [padding] is [0] when
    [style.trim] is set and [style.padding] otherwise; the width and height
    of [trim] are the canvas width and height divided by the resolution in
    index.ts, and [Math.ceil] of these quotients in index.js; [orig] is
    that size less [padding * 2] on each axis; and the dirty flag is
    cleared.  The frame is assigned the size of [trim] and the texture is
    then handed, after [_onTextureUpdate], to
    [baseTexture.setRealSize(canvas.width, canvas.height, resolution)]: the
    frame is what that call leaves. *)
Theorem C2_texture_after_updateTexture {pixi : Pixi} :
  forall (w w' : World) (style : TextStyle.t),
    HTMLText._style (this w) = Some style ->
    let padding := if TextStyle.trim style then 0 else TextStyle.padding style in
    let resolution := HTMLText._resolution (this w) in
    let canvas := canvasEl w' in
    let trim := Texture.trim (texture w') in
    let orig := Texture.orig (texture w') in
    let updated (width height : number) :=
      Rectangle.width trim = width
      /\ Rectangle.height trim = height
      /\ Rectangle.x trim = - padding
      /\ Rectangle.y trim = - padding
      /\ Rectangle.width orig = width - padding * 2
      /\ Rectangle.height orig = height - padding * 2
      /\ HTMLText.dirty (this w') = false
      /\ exists written : Texture.t,
           Rectangle.width (Texture._frame written) = width
           /\ Rectangle.height (Texture._frame written) = height
           /\ Texture.trim written = trim
           /\ Texture.orig written = orig
           /\ texture w'
              = snd (setRealSize (Canvas.width canvas) (Canvas.height canvas) resolution
                       (_onTextureUpdate written (sprite w), written)) in
    (TS.updateTexture w = Returned tt w' ->
     updated (Number.of_Z (Canvas.width canvas) / resolution)
             (Number.of_Z (Canvas.height canvas) / resolution))
    /\
    (JS.updateTexture w = Returned tt w' ->
     updated (Math.ceil (Number.of_Z (Canvas.width canvas) / resolution))
             (Math.ceil (Number.of_Z (Canvas.height canvas) / resolution))).
Proof.
  intros w w' style Hstyle padding resolution canvas trim orig updated.
  subst updated trim orig canvas resolution padding. cbv beta.
  split; intros Hcall.
  - destruct (TSFacts.ts_texture_after_update w w' style Hcall Hstyle)
      as (Hf & Ht & Ho & _ & Hd).
    cbv zeta in Hf, Ht, Ho. rewrite Ht, Ho.
    cbn [Rectangle.width Rectangle.height Rectangle.x Rectangle.y].
    do 7 (split; [reflexivity || exact Hd|]).
    eexists. repeat split; [| | | | exact Hf]; reflexivity.
  - destruct (JSFacts.js_texture_after_update w w' style Hcall Hstyle)
      as (Hf & Ht & Ho & _ & Hd).
    cbv zeta in Hf, Ht, Ho. rewrite Ht, Ho.
    cbn [Rectangle.width Rectangle.height Rectangle.x Rectangle.y].
    do 7 (split; [reflexivity || exact Hd|]).
    eexists. repeat split; [| | | | exact Hf]; reflexivity.
Qed.

(** The texture update of the example instances, at resolution 2: the
    canvas of index.ts is 38 by 30, that of index.js 37 by 30. *)
Lemma C2_witness :
  (exists w', TS.updateTexture ts_decoding = Returned tt w'
              /\ Rectangle.width (Texture.trim (texture w')) = 19
              /\ Rectangle.width (Texture.orig (texture w')) = 11
              /\ Rectangle.x (Texture.trim (texture w')) = -4
              /\ HTMLText.dirty (this w') = false)
  /\ (exists w', JS.updateTexture js_decoding = Returned tt w'
                 /\ Rectangle.width (Texture.trim (texture w')) = 19
                 /\ Rectangle.width (Texture.orig (texture w')) = 11).
Proof.
  split.
  - exists (world_of (TS.updateTexture ts_decoding)).
    assert (Hs : HTMLText._style (this ts_decoding) = Some example_style) by evaluated.
    assert (Hc : TS.updateTexture ts_decoding
                 = Returned tt (world_of (TS.updateTexture ts_decoding))) by evaluated.
    pose proof (proj1 (C2_texture_after_updateTexture (pixi := example_pixi)
                         ts_decoding _ example_style Hs) Hc) as K.
    cbv zeta beta in K. destruct K as (Kw & _ & Kx & _ & Ko & _ & Kd & _).
    split; [exact Hc|]. rewrite Ko, Kw, Kx. repeat split; try exact Kd; evaluated.
  - exists (world_of (JS.updateTexture js_decoding)).
    assert (Hs : HTMLText._style (this js_decoding) = Some example_style) by evaluated.
    assert (Hc : JS.updateTexture js_decoding
                 = Returned tt (world_of (JS.updateTexture js_decoding))) by evaluated.
    pose proof (proj2 (C2_texture_after_updateTexture (pixi := example_pixi)
                         js_decoding _ example_style Hs) Hc) as K.
    cbv zeta beta in K. destruct K as (Kw & _ & _ & _ & Ko & _).
    split; [exact Hc|]. rewrite Ko, Kw. repeat split; evaluated.
Defined.

(** In index.js the width of [trim] is not the quotient: a canvas 37
    pixels wide at resolution 2 gets a [trim] 19 wide, and 37 / 2 is 18.5.
    Under an engine that gives the frame of the frameless texture the size
    of the base texture, the frame ends 18.5 wide, and [orig], 11 wide, is
    not the frame less [padding * 2]. *)
Lemma C2_js_trim_is_ceiled :
  exists w',
    JS.updateTexture (pixi := example_pixi) js_decoding = Returned tt w'
    /\ Canvas.width (canvasEl w') = 37%Z
    /\ HTMLText._resolution (this js_decoding) = 2
    /\ Number.of_Z (Canvas.width (canvasEl w')) / HTMLText._resolution (this js_decoding)
       = 18.5
    /\ Rectangle.width (Texture.trim (texture w')) = 19
    /\ (Rectangle.width (Texture.trim (texture w'))
        =? Number.of_Z (Canvas.width (canvasEl w'))
           / HTMLText._resolution (this js_decoding)) = false
    /\ Rectangle.width (Texture._frame (texture w')) = 18.5
    /\ Rectangle.width (Texture.orig (texture w')) = 11
    /\ (Rectangle.width (Texture.orig (texture w'))
        =? Rectangle.width (Texture._frame (texture w')) - 4 * 2) = false.
Proof.
  exists (world_of (JS.updateTexture js_decoding)). evaluated.
Qed.

(** ** C3 *)

(** C3. For every string given to the [text] setter, sanitization replaces
    every occurrence, whatever its case, of [<br>] by [<br/>], of [<hr>] by
    [<hr/>] and of [&nbsp;] by [&#160;], and copies every other character:
    the three successive [replace] calls compute the one-pass replacement
    [self_closed], the setter stores that text, none of the three substrings
    is left in it, a text in which none of them occurs is returned as it
    is, and ["a<br>b"] and ["x&nbsp;y"] become ["a<br/>b"] and
    ["x&#160;y"]. *)
Theorem C3_sanitise_replaces_every_occurrence :
  (forall s : string, Text.sanitiseText s = Text.self_closed s)
  /\ (forall (text : Value) (w : World),
        HTMLText._text (this (world_of (set_text text w)))
        = Some (Text.self_closed (coerce text)))
  /\ (forall s : string,
        Text.occurs "<br>" (Text.sanitiseText s) = false
        /\ Text.occurs "<hr>" (Text.sanitiseText s) = false
        /\ Text.occurs "&nbsp;" (Text.sanitiseText s) = false)
  /\ (forall s : string,
        Text.occurs "<br>" s = false ->
        Text.occurs "<hr>" s = false ->
        Text.occurs "&nbsp;" s = false ->
        Text.sanitiseText s = s)
  /\ Text.sanitiseText "a<br>b" = "a<br/>b"
  /\ Text.sanitiseText "x&nbsp;y" = "x&#160;y".
Proof.
  split; [exact TextFacts.sanitise_is_self_closed|].
  split.
  { intros text w. rewrite <- TextFacts.sanitise_is_self_closed.
    destruct (string_eq (HTMLText._text (this w)) (Text.sanitiseText (coerce text)))
      eqn:E.
    - rewrite (SetterFacts.set_text_unchanged text w E). cbn [world_of].
      destruct (HTMLText._text (this w)) as [old|]; [|discriminate E].
      cbn [string_eq] in E. apply String.eqb_eq in E. now subst old.
    - rewrite (SetterFacts.set_text_changed text w E). reflexivity. }
  split; [exact TextFacts.nothing_left_to_replace|].
  split.
  { intros s Hbr Hhr Hnb. rewrite TextFacts.sanitise_is_self_closed.
    now apply TextFacts.self_closed_without_occurrence. }
  split; reflexivity.
Qed.

(** ** C5 *)

(** C5. The [text] setter and the [resolution] setter mark the instance
    dirty only on a real change.  Given a value whose sanitized form is the
    stored text, the [text] setter changes nothing at all; given the current
    resolution, the [resolution] setter leaves the dirty flag, the
    resolution and the text as they were.  Given anything else, each stores
    the new value and sets the dirty flag. *)
Theorem C5_setters_mark_dirty_on_change_only :
  forall (w : World),
    (forall text : Value,
        let sanitized := Text.sanitiseText (coerce text) in
        (string_eq (HTMLText._text (this w)) sanitized = true ->
         set_text text w = Returned tt w)
        /\ (string_eq (HTMLText._text (this w)) sanitized = false ->
            exists w', set_text text w = Returned tt w'
                       /\ HTMLText._text (this w') = Some sanitized
                       /\ HTMLText.dirty (this w') = true))
    /\
    (forall value : number,
        (strict_eq (HTMLText._resolution (this w)) value = true ->
         exists w', set_resolution value w = Returned tt w'
                    /\ HTMLText.dirty (this w') = HTMLText.dirty (this w)
                    /\ HTMLText._resolution (this w') = HTMLText._resolution (this w)
                    /\ HTMLText._text (this w') = HTMLText._text (this w))
        /\ (strict_eq (HTMLText._resolution (this w)) value = false ->
            exists w', set_resolution value w = Returned tt w'
                       /\ HTMLText._resolution (this w') = value
                       /\ HTMLText.dirty (this w') = true)).
Proof.
  intros w. split.
  - intros text sanitized. subst sanitized. split; intros E.
    + exact (SetterFacts.set_text_unchanged text w E).
    + eexists. split; [exact (SetterFacts.set_text_changed text w E)|].
      split; reflexivity.
  - intros value. split; intros E.
    + eexists. split; [exact (SetterFacts.set_resolution_unchanged value w E)|].
      repeat split; reflexivity.
    + eexists. split; [exact (SetterFacts.set_resolution_changed value w E)|].
      split; reflexivity.
Qed.

(** On the example instance, which holds [Hi] at resolution 2: setting
    [Hi] again or resolution [4 / 2] changes neither field nor the flag, and
    setting [a<br>] stores [a<br/>]. *)
Lemma C5_witness :
  set_text (VString "Hi") ts_decoding = Returned tt ts_decoding
  /\ (exists w', set_text (VString "a<br>") ts_decoding = Returned tt w'
                 /\ HTMLText._text (this w') = Some "a<br/>"
                 /\ HTMLText.dirty (this w') = true)
  /\ (exists w', set_resolution (4 / 2) ts_decoding = Returned tt w'
                 /\ HTMLText.dirty (this w') = HTMLText.dirty (this ts_decoding)
                 /\ HTMLText._resolution (this w') = HTMLText._resolution (this ts_decoding)
                 /\ HTMLText._text (this w') = HTMLText._text (this ts_decoding)).
Proof.
  pose proof (C5_setters_mark_dirty_on_change_only ts_decoding) as [Ktext Kres].
  split; [|split].
  - apply (proj1 (Ktext (VString "Hi"))). evaluated.
  - apply (proj2 (Ktext (VString "a<br>"))). evaluated.
  - apply (proj1 (Kres (4 / 2))). evaluated.
Defined.

(** ** C6 *)

(** C6. Setting the text to the empty string, to [null] or to [undefined]
    returns and leaves exactly the one-character string of a single space
    as the stored text. *)
Theorem C6_empty_text_is_a_space :
  forall (w : World) (text : Value),
    text = VString "" \/ text = VNull \/ text = VUndefined ->
    returned (set_text text w) = true
    /\ HTMLText._text (this (world_of (set_text text w))) = Some " ".
Proof.
  intros w text Htext.
  assert (Hc : coerce text = " ") by (destruct Htext as [-> | [-> | ->]]; reflexivity).
  destruct (string_eq (HTMLText._text (this w)) (Text.sanitiseText (coerce text))) eqn:E.
  - rewrite (SetterFacts.set_text_unchanged text w E). cbn [returned world_of].
    rewrite Hc in E. split; [reflexivity|].
    destruct (HTMLText._text (this w)) as [old|]; [|discriminate E].
    cbn [string_eq] in E. apply String.eqb_eq in E. now subst old.
  - rewrite (SetterFacts.set_text_changed text w E). cbn [returned world_of].
    rewrite Hc. repeat split.
Qed.

(** On the example instance, which holds [Hi]. *)
Lemma C6_witness :
  HTMLText._text (this (world_of (set_text VNull ts_decoding))) = Some " ".
Proof.
  exact (proj2 (C6_empty_text_is_a_space ts_decoding VNull
                  (or_intror (or_introl eq_refl)))).
Defined.

(** ** C7 *)




(** ** C8 *)

(** C8. [destroy], called on a live instance (whether or not a decode is
    pending), returns having set the image's [onload] to [null] and cleared
    its source; a [load] event delivered to the image afterwards returns
    without throwing and leaves every field, of the instance and of
    everything it owned, as [destroy] left it. *)
Theorem C8_destroy_detaches_the_callback {pixi : Pixi} :
  forall (w : World),
    (TS.live w = true ->
     exists w',
       TS.destroy w = Returned tt w'
       /\ Image.onload (imageEl w') = None
       /\ Image.src (imageEl w') = None
       /\ forall painted, TS.fire_load painted w' = Returned tt w')
    /\
    (JS.live w = true ->
     exists w',
       JS.destroy w = Returned tt w'
       /\ Image.onload (imageEl w') = None
       /\ Image.src (imageEl w') = None
       /\ forall painted, JS.fire_load painted w' = Returned tt w').
Proof.
  intros w. split; intros Hlive.
  - destruct (TSFacts.ts_destroy_detaches w Hlive) as (w' & Hc & Hl & Hs & _).
    exists w'. repeat split; try assumption.
    intros painted. unfold TS.fire_load, bind, current. rewrite Hl. reflexivity.
  - destruct (JSFacts.js_destroy_detaches w Hlive) as (w' & Hc & Hl & Hs & _).
    exists w'. repeat split; try assumption.
    intros painted. unfold JS.fire_load, bind, current. rewrite Hl. reflexivity.
Qed.

(** The example instances, destroyed while their first decode is pending. *)
Lemma C8_witness :
  (Image.onload (imageEl ts_decoding) <> None
   /\ exists w', TS.destroy ts_decoding = Returned tt w'
                 /\ Image.onload (imageEl w') = None
                 /\ Image.src (imageEl w') = None
                 /\ forall painted, TS.fire_load painted w' = Returned tt w')
  /\ (Image.onload (imageEl js_decoding) <> None
      /\ exists w', JS.destroy js_decoding = Returned tt w'
                    /\ Image.onload (imageEl w') = None
                    /\ Image.src (imageEl w') = None
                    /\ forall painted, JS.fire_load painted w' = Returned tt w').
Proof.
  split; (split; [vm_compute; discriminate|]).
  - apply (proj1 (C8_destroy_detaches_the_callback (pixi := example_pixi) ts_decoding)).
    evaluated.
  - apply (proj2 (C8_destroy_detaches_the_callback (pixi := example_pixi) js_decoding)).
    evaluated.
Defined.

(** ** C4 *)



(** ** C9 *)

(** C9. A failed decode is not handled.  (1) In every world reachable from
    the constructor the image has no [onerror].  (2) From a world with a
    decode pending and no [onerror], whatever is called and whatever
    [error] events arrive, as long as no [load] event does: [_loading] stays
    set, no decode is requested, nothing is drawn, and no texture update
    runs; the texture is as it was unless [destroy] was among the calls. *)
Theorem C9_failed_decode_is_unhandled {pixi : Pixi} :
  (forall text style base frame sprite0 RESOLUTION (actions : list Action),
      Image.onerror
        (imageEl (TS.run actions (TS.construct text style base frame sprite0 RESOLUTION)))
      = None
      /\ Image.onerror
           (imageEl (JS.run actions (JS.construct text style base frame sprite0 RESOLUTION)))
         = None)
  /\
  (forall (actions : list Action) (w : World),
      forallb (fun a => negb (is_load a)) actions = true ->
      HTMLText._loading (this w) = true ->
      Image.onerror (imageEl w) = None ->
      (let w' := TS.run actions w in
       HTMLText._loading (this w') = true
       /\ decodes_requested w' = decodes_requested w
       /\ decodes_completed w' = decodes_completed w
       /\ texture_updates w' = texture_updates w
       /\ (forallb (fun a => negb (is_destroy a)) actions = true ->
           texture w' = texture w))
      /\
      (let w' := JS.run actions w in
       HTMLText._loading (this w') = true
       /\ decodes_requested w' = decodes_requested w
       /\ decodes_completed w' = decodes_completed w
       /\ texture_updates w' = texture_updates w
       /\ (forallb (fun a => negb (is_destroy a)) actions = true ->
           texture w' = texture w))).
Proof.
  split.
  - intros text style base frame sprite0 RESOLUTION actions. split.
    + apply (TSFacts.ts_coherent_run actions), TSFacts.ts_coherent_construct.
    + apply (JSFacts.js_coherent_run actions), JSFacts.js_coherent_construct.
  - intros actions w Hall Hbusy Herr. split; cbv zeta.
    + destruct (TSFacts.ts_stuck_run actions w Hall Hbusy Herr)
        as (H1 & _ & H3 & H4 & H5 & H6). auto.
    + destruct (JSFacts.js_stuck_run actions w Hall Hbusy Herr)
        as (H1 & _ & H3 & H4 & H5 & H6). auto.
Qed.

(** The decode of the example instances fails; the text and the style are
    changed and three render ticks pass. *)
Lemma C9_witness :
  let later := [Error; SetText (VString "Ho"); Render 2 example_box;
                MutateStyle 8 false; Render 2 example_box;
                UpdateText example_box false; Render 2 example_box] in
  (HTMLText._loading (this (TS.run later ts_decoding)) = true
   /\ decodes_requested (TS.run later ts_decoding) = 1%nat
   /\ texture (TS.run later ts_decoding) = texture ts_decoding)
  /\ (HTMLText._loading (this (JS.run later js_decoding)) = true
      /\ decodes_requested (JS.run later js_decoding) = 1%nat
      /\ texture (JS.run later js_decoding) = texture js_decoding).
Proof.
  intros later.
  pose proof (proj2 (C9_failed_decode_is_unhandled (pixi := example_pixi)) later) as K.
  assert (Hall : forallb (fun a => negb (is_load a)) later = true) by evaluated.
  assert (Hkeep : forallb (fun a => negb (is_destroy a)) later = true) by evaluated.
  split.
  - assert (Hbusy : HTMLText._loading (this ts_decoding) = true) by evaluated.
    assert (Herr : Image.onerror (imageEl ts_decoding) = None) by evaluated.
    destruct (proj1 (K ts_decoding Hall Hbusy Herr)) as (H1 & H2 & _ & _ & H4).
    split; [exact H1|]. split; [rewrite H2; evaluated | exact (H4 Hkeep)].
  - assert (Hbusy : HTMLText._loading (this js_decoding) = true) by evaluated.
    assert (Herr : Image.onerror (imageEl js_decoding) = None) by evaluated.
    destruct (proj2 (K js_decoding Hall Hbusy Herr)) as (H1 & H2 & _ & _ & H4).
    split; [exact H1|]. split; [rewrite H2; evaluated | exact (H4 Hkeep)].
Defined.

(** ** C10 *)

(** C10. Every assignment to [resolution] returns with [_autoResolution]
    [false].  When the value assigned is the current resolution, nothing
    else changes.  Whatever is called afterwards, [_autoResolution] stays
    [false], and no [_render] or [_renderCanvas] changes the resolution. *)
Theorem C10_manual_resolution_ends_auto_resolution {pixi : Pixi} :
  forall (value : number) (w : World),
    exists w1,
      set_resolution value w = Returned tt w1
      /\ HTMLText._autoResolution (this w1) = false
      /\ (strict_eq (HTMLText._resolution (this w)) value = true ->
          w1 = with_this (HTMLText.set__autoResolution false) w)
      /\ forall (actions : list Action) (r : number) (box : DOMRect.t),
          (let w2 := TS.run actions w1 in
           HTMLText._autoResolution (this w2) = false
           /\ HTMLText._resolution (this (world_of (TS._render r box w2)))
              = HTMLText._resolution (this w2)
           /\ HTMLText._resolution (this (world_of (TS._renderCanvas r box w2)))
              = HTMLText._resolution (this w2))
          /\
          (let w2 := JS.run actions w1 in
           HTMLText._autoResolution (this w2) = false
           /\ HTMLText._resolution (this (world_of (JS._render r box w2)))
              = HTMLText._resolution (this w2)
           /\ HTMLText._resolution (this (world_of (JS._renderCanvas r box w2)))
              = HTMLText._resolution (this w2)).
Proof.
  intros value w.
  assert (Hoff : exists w1, set_resolution value w = Returned tt w1
                            /\ HTMLText._autoResolution (this w1) = false
                            /\ (strict_eq (HTMLText._resolution (this w)) value = true ->
                                w1 = with_this (HTMLText.set__autoResolution false) w)).
  { destruct (strict_eq (HTMLText._resolution (this w)) value) eqn:E.
    - eexists. split; [exact (SetterFacts.set_resolution_unchanged value w E)|].
      split; [reflexivity|]. intros _. reflexivity.
    - eexists. split; [exact (SetterFacts.set_resolution_changed value w E)|].
      split; [reflexivity|]. intros Habs. discriminate Habs. }
  destruct Hoff as (w1 & Hcall & Hoff & Hsame).
  exists w1. split; [exact Hcall|]. split; [exact Hoff|]. split; [exact Hsame|].
  intros actions r box. split; cbv zeta.
  - pose proof (TSFacts.ts_auto_stays_off_run actions w1 Hoff) as Hrun.
    split; [exact Hrun|]. split.
    + now apply TSFacts.ts_render_keeps_resolution.
    + now apply TSFacts.ts_renderCanvas_keeps_resolution.
  - pose proof (JSFacts.js_auto_stays_off_run actions w1 Hoff) as Hrun.
    split; [exact Hrun|]. split.
    + now apply JSFacts.js_render_keeps_resolution.
    + now apply JSFacts.js_renderCanvas_keeps_resolution.
Qed.

(** The example instance at resolution 2 is given 2 again and then rendered
    by a renderer of resolution 3. *)
Lemma C10_witness :
  exists w1,
    set_resolution 2 ts_decoding = Returned tt w1
    /\ w1 = with_this (HTMLText.set__autoResolution false) ts_decoding
    /\ HTMLText._resolution (this (world_of (TS._render 3 example_box w1))) = 2.
Proof.
  destruct (C10_manual_resolution_ends_auto_resolution (pixi := example_pixi) 2 ts_decoding)
    as (w1 & Hcall & _ & Hsame & Hlater).
  exists w1. split; [exact Hcall|].
  assert (Hw1 : w1 = with_this (HTMLText.set__autoResolution false) ts_decoding)
    by (apply Hsame; evaluated).
  split; [exact Hw1|].
  destruct (proj1 (Hlater [] 3 example_box)) as (_ & Hr & _).
  cbn [TS.run] in Hr. rewrite Hr, Hw1. evaluated.
Defined.

(* ===================================================================== *)
(** * Further properties of the code *)
(* ===================================================================== *)

(** ** The text the setter stores *)

Module StoredText.
Import Text.

Lemma sanitise_idempotent s : sanitiseText (sanitiseText s) = sanitiseText s.
Proof.
  destruct (TextFacts.nothing_left_to_replace s) as (Hbr & Hhr & Hnb).
  rewrite (TextFacts.sanitise_is_self_closed (sanitiseText s)).
  now apply TextFacts.self_closed_without_occurrence.
Qed.

Lemma sanitise_keeps_something s : s <> "" -> sanitiseText s <> "".
Proof.
  intros Hs. rewrite TextFacts.sanitise_is_self_closed.
  destruct s as [|c s]; [congruence|].
  rewrite TextFacts.self_closed_step.
  destruct (ci_prefix "<br>" (String c s)); [discriminate|].
  destruct (ci_prefix "<hr>" (String c s)); [discriminate|].
  destruct (ci_prefix "&nbsp;" (String c s)); discriminate.
Qed.

Lemma coerce_keeps_something text : coerce text <> "".
Proof.
  destruct text as [s| |]; cbn; try discriminate.
  destruct (String.eqb s "") eqn:E; [discriminate|].
  now apply String.eqb_neq.
Qed.

Lemma setter_text_is_sanitized text :
  sanitized (sanitiseText (coerce text)) = true.
Proof.
  unfold sanitized.
  destruct (TextFacts.nothing_left_to_replace (coerce text)) as (-> & -> & ->).
  cbn [negb andb]. rewrite !andb_true_r. apply negb_true_iff, String.eqb_neq.
  apply sanitise_keeps_something, coerce_keeps_something.
Qed.

Lemma sanitized_is_fixed t : sanitized t = true -> sanitiseText (coerce (VString t)) = t.
Proof.
  unfold sanitized. intros H.
  repeat (apply andb_true_iff in H; destruct H as [H ?]).
  repeat match goal with
         | K : negb _ = true |- _ => apply negb_true_iff in K
         end.
  cbn [coerce]. rewrite H.
  rewrite TextFacts.sanitise_is_self_closed.
  now apply TextFacts.self_closed_without_occurrence.
Qed.

Lemma set_text_keeps_sanitized text w :
  holds_sanitized_text (world_of (set_text text w)) = true.
Proof.
  destruct (string_eq (HTMLText._text (this w)) (sanitiseText (coerce text))) eqn:E.
  - rewrite (SetterFacts.set_text_unchanged text w E). cbn [world_of].
    unfold holds_sanitized_text.
    destruct (HTMLText._text (this w)) as [old|]; [|discriminate E].
    cbn [string_eq] in E. apply String.eqb_eq in E. subst old.
    apply setter_text_is_sanitized.
  - rewrite (SetterFacts.set_text_changed text w E).
    unfold holds_sanitized_text. cbn. apply setter_text_is_sanitized.
Qed.

End StoredText.

(* ===================================================================== *)
(** ** More facts about the TypeScript revision *)
(* ===================================================================== *)

Module TSMore.
Section WithHost.
Context {pixi : Pixi}.

Ltac unfold_members H :=
  unfold TS.step, TS._render, TS._renderCanvas, TS.getLocalBounds,
    TS._calculateBounds, TS.get_width, TS.set_width, TS.get_height,
    TS.set_height, TS.destroy, TS.fire_load, TS.fire_error, TS.onload,
    TS.updateText, TS.updateTexture, set_text, set_style, mutate_style,
    set_resolution, _onStyleChange, follow_renderer in H.

Ltac all_paths w :=
  match goal with
  | |- context [world_of ?call] =>
      let o := fresh "o" in
      let H := fresh "Hcall" in
      remember call as o eqn:H; symmetry in H;
      unfold_members H; open_world w; run_monad; subst_flags;
      exec H; subst o; run_monad
  end.

(** Decide a call on a live instance: name its outcome, follow the paths. *)
Ltac on_live call Hlive w :=
  let o := fresh "o" in
  let H := fresh "Hcall" in
  remember call as o eqn:H; symmetry in H;
  unfold TS.live in Hlive; unfold_members H; open_world w; run_monad;
  subst_flags; use_live Hlive; exec H; subst o.

(** A transparent canvas is not trimmed. *)
Ltac untrimmed :=
  try match goal with
      | E : Trimmed.data (trimCanvas ?c) = Some _ |- _ =>
          rewrite (trimCanvas_transparent c eq_refl) in E; discriminate E
      end.

(** The style was not newer than the last pass: the counters agree. *)
Ltac same_counter :=
  match goal with
  | E : negb (_ =? _)%Z = false |- _ =>
      apply negb_false_iff, Z.eqb_eq in E; exact E
  end.

(** *** The stored text *)

Lemma ts_text_only_by_setter a w :
  match a with SetText _ => False | _ => True end ->
  HTMLText._text (this (world_of (TS.step a w))) = HTMLText._text (this w).
Proof.
  intros Ha. destruct a; try contradiction; all_paths w; reflexivity.
Qed.

Lemma ts_sanitized_step a w :
  holds_sanitized_text w = true ->
  holds_sanitized_text (world_of (TS.step a w)) = true.
Proof.
  intros Hw. destruct a as [text| | | | | | | | | | | | | | | |].
  1: exact (StoredText.set_text_keeps_sanitized text w).
  all: unfold holds_sanitized_text in *;
    rewrite ts_text_only_by_setter by exact I; exact Hw.
Qed.

Lemma ts_sanitized_run actions : forall w,
  holds_sanitized_text w = true ->
  holds_sanitized_text (TS.run actions w) = true.
Proof.
  induction actions as [|a rest IH]; intros w Hw; [exact Hw|].
  cbn [TS.run]. apply IH. now apply ts_sanitized_step.
Qed.

(** *** The constructor *)

Lemma ts_constructed text style base frame sprite0 RESOLUTION :
  let w := TS.construct text style base frame sprite0 RESOLUTION in
  TS.live w = true
  /\ HTMLText.dirty (this w) = true
  /\ HTMLText._loading (this w) = false
  /\ HTMLText._autoResolution (this w) = true
  /\ HTMLText._resolution (this w) = RESOLUTION
  /\ HTMLText._style (this w) = Some style
  /\ HTMLText._text (this w) = Some (Text.sanitiseText (coerce text))
  /\ canvasEl w = Canvas.mk 3 3 None
  /\ imageEl w = Image.fresh
  /\ log w = [].
Proof.
  cbv zeta. unfold TS.construct, TS.live.
  match goal with |- context [world_of ?call] => remember call as o eqn:H; symmetry in H end.
  unfold set_text, set_style in H. exec H; subst o; run_monad.
  all: cbn [string_eq] in *; try discriminate.
  all: destruct text; repeat split; reflexivity.
Qed.

(** *** A pass that requests a decode *)


(** *** A forced pass *)


(** *** What a pass leaves alone *)

Lemma ts_pass_frame box respectDirty w :
  let w' := world_of (TS.updateText box respectDirty w) in
  HTMLText._text (this w') = HTMLText._text (this w)
  /\ HTMLText._style (this w') = HTMLText._style (this w)
  /\ HTMLText._resolution (this w') = HTMLText._resolution (this w)
  /\ HTMLText._autoResolution (this w') = HTMLText._autoResolution (this w)
  /\ decodes_completed w' = decodes_completed w.
Proof.
  cbv zeta. all_paths w; counts; repeat split; reflexivity.
Qed.

(** *** After [destroy] *)

Lemma ts_use_after_destroy w :
  TS.live w = true ->
  exists w',
    TS.destroy w = Returned tt w'
    /\ canvasEl w' = Canvas.mk 0 0 None
    /\ HTMLText._text (this w') = HTMLText._text (this w)
    /\ HTMLText._loading (this w') = HTMLText._loading (this w)
    /\ (forall box respectDirty, TS.updateText box respectDirty w' = Thrown w')
    /\ (forall box, TS.get_width box w' = Thrown w')
    /\ (forall box, TS.get_height box w' = Thrown w')
    /\ (forall value box, TS.set_width value box w' = Thrown w')
    /\ (forall value box, TS.set_height value box w' = Thrown w')
    /\ returned (TS.destroy w') = false.
Proof.
  intros Hlive. unfold TS.live in Hlive. open_world w. run_monad. use_live Hlive.
  eexists. split; [unfold TS.destroy; run_monad; reflexivity|].
  unfold TS.updateText, TS.get_width, TS.get_height, TS.set_width,
    TS.set_height, TS.destroy, TS.updateText.
  run_monad. repeat split; reflexivity.
Qed.

(** *** The decode that completes *)

Lemma ts_decode_completes painted w closure :
  TS.live w = true ->
  Image.onload (imageEl w) = Some closure ->
  exists w',
    TS.fire_load painted w = Returned tt w'
    /\ TS.live w' = true
    /\ HTMLText._loading (this w') = false
    /\ HTMLText.dirty (this w') = false
    /\ imageEl w' = Image.mk None None (Image.onerror (imageEl w))
    /\ decodes_completed w' = S (decodes_completed w)
    /\ texture_updates w' = S (texture_updates w).
Proof.
  intros Hlive Hload.
  destruct (TS.fire_load painted w) as [[] w'|w'] eqn:H.
  - exists w'. split; [reflexivity|].
    unfold TS.live in *. open_world w. run_monad. use_live Hlive.
    unfold TS.fire_load, TS.onload, TS.updateTexture in H. run_monad.
    rewrite Hload in H.
    exec H; injection H as <-; run_monad; counts; repeat split; reflexivity.
  - exfalso. unfold TS.live in *. open_world w. run_monad. use_live Hlive.
    unfold TS.fire_load, TS.onload, TS.updateTexture in H. run_monad.
    rewrite Hload in H. exec H.
Qed.

(** The completed decode leaves nothing stale, when the style is the one
    the pass has seen. *)
Lemma ts_decode_settles painted w closure style :
  TS.live w = true ->
  Image.onload (imageEl w) = Some closure ->
  HTMLText._style (this w) = Some style ->
  HTMLText.localStyleID (this w) = TextStyle.styleID style ->
  exists w',
    TS.fire_load painted w = Returned tt w'
    /\ TS.live w' = true
    /\ stale w' = false
    /\ HTMLText._resolution (this w') = HTMLText._resolution (this w)
    /\ Image.onload (imageEl w') = None
    /\ Image.src (imageEl w') = None.
Proof.
  intros Hlive Hload Hstyle Hid.
  destruct (TS.fire_load painted w) as [[] w'|w'] eqn:H.
  - exists w'. split; [reflexivity|].
    unfold TS.live, stale in *. open_world w. run_monad. use_live Hlive.
    unfold TS.fire_load, TS.onload, TS.updateTexture in H. run_monad.
    rewrite Hload in H. injection Hstyle as ->.
    exec H; injection H as <-; run_monad; rewrite ?Hid, ?Z.eqb_refl;
      repeat split; reflexivity.
  - exfalso. unfold TS.live in *. open_world w. run_monad. use_live Hlive.
    unfold TS.fire_load, TS.onload, TS.updateTexture in H. run_monad.
    rewrite Hload in H. exec H.
Qed.

(** *** A render tick under the automatic resolution *)


Lemma ts_render_at_rest r box w :
  TS.live w = true -> stale w = false ->
  strict_eq (HTMLText._resolution (this w)) r = true ->
  TS._render r box w = Returned tt w.
Proof.
  intros Hlive Hstale Hsame. unfold TS._render, follow_renderer, bind at 1.
  assert (Hhead :
    (_autoResolution <- field HTMLText._autoResolution ;;
     _resolution <- field HTMLText._resolution ;;
     when (_autoResolution && negb (strict_eq _resolution r))
       (assign (HTMLText.set__resolution r) ;; assign (HTMLText.set_dirty true)))%method w
    = Returned tt w).
  { open_world w. run_monad. rewrite Hsame.
    rewrite andb_false_r. reflexivity. }
  rewrite Hhead. now apply TSFacts.ts_pass_skipped.
Qed.

(** *** A style assigned *)


(** *** Bookkeeping of the texture updates *)

Lemma ts_accounted_step a w :
  ts_accounted w -> ts_accounted (world_of (TS.step a w)).
Proof.
  unfold ts_accounted, handler_finds_instance.
  intros (Hcount & Hfinds & Herr).
  destruct a; all_paths w; counts; finish.
Qed.

Lemma ts_accounted_run actions : forall w,
  ts_accounted w -> ts_accounted (TS.run actions w).
Proof.
  induction actions as [|a rest IH]; intros w Hw; [exact Hw|].
  cbn [TS.run]. apply IH. now apply ts_accounted_step.
Qed.

Lemma ts_accounted_construct text style base frame sprite0 RESOLUTION :
  ts_accounted (TS.construct text style base frame sprite0 RESOLUTION).
Proof.
  destruct (ts_constructed text style base frame sprite0 RESOLUTION)
    as (_ & _ & _ & _ & _ & _ & _ & _ & Himg & Hlog).
  unfold ts_accounted, handler_finds_instance, texture_updates, decodes_completed.
  rewrite Himg, Hlog. cbn. repeat split; congruence.
Qed.

(** *** A pass alone shows nothing new *)



(** *** Writing and reading back [width] and [height] *)

End WithHost.
End TSMore.

(* ===================================================================== *)
(** ** More facts about the JavaScript revision *)
(* ===================================================================== *)

Module JSMore.
Section WithHost.
Context {pixi : Pixi}.

Ltac unfold_members H :=
  unfold JS.step, JS._render, JS._renderCanvas, JS.getLocalBounds,
    JS._calculateBounds, JS.get_width, JS.set_width, JS.get_height,
    JS.set_height, JS.destroy, JS.fire_load, JS.fire_error, JS.onload,
    JS.updateText, JS.updateTexture, set_text, set_style, mutate_style,
    set_resolution, _onStyleChange, follow_renderer in H.

Ltac all_paths w :=
  match goal with
  | |- context [world_of ?call] =>
      let o := fresh "o" in
      let H := fresh "Hcall" in
      remember call as o eqn:H; symmetry in H;
      unfold_members H; open_world w; run_monad; subst_flags;
      exec H; subst o; run_monad
  end.

(** Decide a call on a live instance: name its outcome, follow the paths. *)
Ltac on_live call Hlive w :=
  let o := fresh "o" in
  let H := fresh "Hcall" in
  remember call as o eqn:H; symmetry in H;
  unfold JS.live in Hlive; unfold_members H; open_world w; run_monad;
  subst_flags; use_live Hlive; exec H; subst o.

(** A transparent canvas is not trimmed. *)
Ltac untrimmed :=
  try match goal with
      | E : Trimmed.data (trimCanvas ?c) = Some _ |- _ =>
          rewrite (trimCanvas_transparent c eq_refl) in E; discriminate E
      end.

(** The style was not newer than the last pass: the counters agree. *)
Ltac same_counter :=
  match goal with
  | E : negb (_ =? _)%Z = false |- _ =>
      apply negb_false_iff, Z.eqb_eq in E; exact E
  end.

(** *** The stored text *)

Lemma js_text_only_by_setter a w :
  match a with SetText _ => False | _ => True end ->
  HTMLText._text (this (world_of (JS.step a w))) = HTMLText._text (this w).
Proof.
  intros Ha. destruct a; try contradiction; all_paths w; reflexivity.
Qed.

Lemma js_sanitized_step a w :
  holds_sanitized_text w = true ->
  holds_sanitized_text (world_of (JS.step a w)) = true.
Proof.
  intros Hw. destruct a as [text| | | | | | | | | | | | | | | |].
  1: exact (StoredText.set_text_keeps_sanitized text w).
  all: unfold holds_sanitized_text in *;
    rewrite js_text_only_by_setter by exact I; exact Hw.
Qed.

Lemma js_sanitized_run actions : forall w,
  holds_sanitized_text w = true ->
  holds_sanitized_text (JS.run actions w) = true.
Proof.
  induction actions as [|a rest IH]; intros w Hw; [exact Hw|].
  cbn [JS.run]. apply IH. now apply js_sanitized_step.
Qed.

(** *** The constructor *)

Lemma js_constructed text style base frame sprite0 RESOLUTION :
  let w := JS.construct text style base frame sprite0 RESOLUTION in
  JS.live w = true
  /\ HTMLText.dirty (this w) = true
  /\ HTMLText._loading (this w) = false
  /\ HTMLText._autoResolution (this w) = true
  /\ HTMLText._resolution (this w) = RESOLUTION
  /\ HTMLText._style (this w) = Some style
  /\ HTMLText._text (this w) = Some (Text.sanitiseText (coerce text))
  /\ canvasEl w = Canvas.mk 3 3 None
  /\ imageEl w = Image.fresh
  /\ log w = [].
Proof.
  cbv zeta. unfold JS.construct, JS.live.
  match goal with |- context [world_of ?call] => remember call as o eqn:H; symmetry in H end.
  unfold set_text, set_style in H. exec H; subst o; run_monad.
  all: cbn [string_eq] in *; try discriminate.
  all: destruct text; repeat split; reflexivity.
Qed.

(** *** A pass that requests a decode *)


(** *** A forced pass *)


(** *** What a pass leaves alone *)

Lemma js_pass_frame box respectDirty w :
  let w' := world_of (JS.updateText box respectDirty w) in
  HTMLText._text (this w') = HTMLText._text (this w)
  /\ HTMLText._style (this w') = HTMLText._style (this w)
  /\ HTMLText._resolution (this w') = HTMLText._resolution (this w)
  /\ HTMLText._autoResolution (this w') = HTMLText._autoResolution (this w)
  /\ decodes_completed w' = decodes_completed w.
Proof.
  cbv zeta. all_paths w; counts; repeat split; reflexivity.
Qed.

(** *** After [destroy] *)

Lemma js_use_after_destroy w :
  JS.live w = true ->
  exists w',
    JS.destroy w = Returned tt w'
    /\ canvasEl w' = Canvas.mk 0 0 None
    /\ HTMLText._text (this w') = HTMLText._text (this w)
    /\ HTMLText._loading (this w') = HTMLText._loading (this w)
    /\ (forall box respectDirty, JS.updateText box respectDirty w' = Thrown w')
    /\ (forall box, JS.get_width box w' = Thrown w')
    /\ (forall box, JS.get_height box w' = Thrown w')
    /\ (forall value box, JS.set_width value box w' = Thrown w')
    /\ (forall value box, JS.set_height value box w' = Thrown w')
    /\ returned (JS.destroy w') = false.
Proof.
  intros Hlive. unfold JS.live in Hlive. open_world w. run_monad. use_live Hlive.
  eexists. split; [unfold JS.destroy; run_monad; reflexivity|].
  unfold JS.updateText, JS.get_width, JS.get_height, JS.set_width,
    JS.set_height, JS.destroy, JS.updateText.
  run_monad. repeat split; reflexivity.
Qed.

(** *** The decode that completes *)

Lemma js_decode_completes painted w closure :
  JS.live w = true ->
  Image.onload (imageEl w) = Some closure ->
  exists w',
    JS.fire_load painted w = Returned tt w'
    /\ JS.live w' = true
    /\ HTMLText._loading (this w') = false
    /\ HTMLText.dirty (this w') = false
    /\ imageEl w' = Image.mk None None (Image.onerror (imageEl w))
    /\ decodes_completed w' = S (decodes_completed w)
    /\ texture_updates w' = S (texture_updates w).
Proof.
  intros Hlive Hload.
  destruct (JS.fire_load painted w) as [[] w'|w'] eqn:H.
  - exists w'. split; [reflexivity|].
    unfold JS.live in *. open_world w. run_monad. use_live Hlive.
    unfold JS.fire_load, JS.onload, JS.updateTexture in H. run_monad.
    rewrite Hload in H.
    exec H; injection H as <-; run_monad; counts; repeat split; reflexivity.
  - exfalso. unfold JS.live in *. open_world w. run_monad. use_live Hlive.
    unfold JS.fire_load, JS.onload, JS.updateTexture in H. run_monad.
    rewrite Hload in H. exec H.
Qed.

(** The completed decode leaves nothing stale, when the style is the one
    the pass has seen. *)
Lemma js_decode_settles painted w closure style :
  JS.live w = true ->
  Image.onload (imageEl w) = Some closure ->
  HTMLText._style (this w) = Some style ->
  HTMLText.localStyleID (this w) = TextStyle.styleID style ->
  exists w',
    JS.fire_load painted w = Returned tt w'
    /\ JS.live w' = true
    /\ stale w' = false
    /\ HTMLText._resolution (this w') = HTMLText._resolution (this w)
    /\ Image.onload (imageEl w') = None
    /\ Image.src (imageEl w') = None.
Proof.
  intros Hlive Hload Hstyle Hid.
  destruct (JS.fire_load painted w) as [[] w'|w'] eqn:H.
  - exists w'. split; [reflexivity|].
    unfold JS.live, stale in *. open_world w. run_monad. use_live Hlive.
    unfold JS.fire_load, JS.onload, JS.updateTexture in H. run_monad.
    rewrite Hload in H. injection Hstyle as ->.
    exec H; injection H as <-; run_monad; rewrite ?Hid, ?Z.eqb_refl;
      repeat split; reflexivity.
  - exfalso. unfold JS.live in *. open_world w. run_monad. use_live Hlive.
    unfold JS.fire_load, JS.onload, JS.updateTexture in H. run_monad.
    rewrite Hload in H. exec H.
Qed.

(** *** A render tick under the automatic resolution *)


Lemma js_render_at_rest r box w :
  JS.live w = true -> stale w = false ->
  strict_eq (HTMLText._resolution (this w)) r = true ->
  JS._render r box w = Returned tt w.
Proof.
  intros Hlive Hstale Hsame. unfold JS._render, follow_renderer, bind at 1.
  assert (Hhead :
    (_autoResolution <- field HTMLText._autoResolution ;;
     _resolution <- field HTMLText._resolution ;;
     when (_autoResolution && negb (strict_eq _resolution r))
       (assign (HTMLText.set__resolution r) ;; assign (HTMLText.set_dirty true)))%method w
    = Returned tt w).
  { open_world w. run_monad. rewrite Hsame.
    rewrite andb_false_r. reflexivity. }
  rewrite Hhead. now apply JSFacts.js_pass_skipped.
Qed.

(** *** A style assigned *)


(** *** Bookkeeping of the texture updates *)

Lemma js_accounted_step a w :
  js_accounted w -> js_accounted (world_of (JS.step a w)).
Proof.
  unfold js_accounted, handler_finds_instance.
  intros (Hcount & Hfinds & Herr).
  destruct a; all_paths w; counts; finish.
Qed.

Lemma js_accounted_run actions : forall w,
  js_accounted w -> js_accounted (JS.run actions w).
Proof.
  induction actions as [|a rest IH]; intros w Hw; [exact Hw|].
  cbn [JS.run]. apply IH. now apply js_accounted_step.
Qed.

Lemma js_accounted_construct text style base frame sprite0 RESOLUTION :
  js_accounted (JS.construct text style base frame sprite0 RESOLUTION).
Proof.
  destruct (js_constructed text style base frame sprite0 RESOLUTION)
    as (_ & _ & _ & _ & _ & _ & _ & _ & Himg & Hlog).
  unfold js_accounted, handler_finds_instance, texture_updates, decodes_completed,
    decodes_requested.
  rewrite Himg, Hlog. cbn. repeat split; congruence.
Qed.

(** *** The pass that requests a decode updates the texture at once *)


(** *** Writing and reading back [width] and [height] *)

(** *** A text the parser rejects *)

(** The pass throws at [appendChild] and leaves the instance as stale as it
    was, with nothing measured, requested, resized or drawn. *)
Lemma js_unparsed_pass box respectDirty w :
  JS.live w = true -> JS.parses w = false -> stale w = true ->
  exists w',
    JS.updateText box respectDirty w = Thrown w'
    /\ JS.live w' = true
    /\ JS.parses w' = false
    /\ stale w' = true
    /\ HTMLText.dirty (this w') = true
    /\ log w' = log w
    /\ canvasEl w' = canvasEl w
    /\ imageEl w' = imageEl w
    /\ texture w' = texture w
    /\ sprite w' = sprite w.
Proof.
  intros Hlive Hparses Hstale.
  destruct (JS.updateText box respectDirty w) as [[] w'|w'] eqn:H.
  - exfalso. unfold JS.live, JS.parses, stale in *. open_world w. run_monad.
    use_live Hlive. unfold JS.updateText, JS.updateTexture in H.
    exec H; try discriminate H; settle Hstale.
  - exists w'. split; [reflexivity|].
    unfold JS.live, JS.parses, stale in *. open_world w. run_monad.
    use_live Hlive. unfold JS.updateText, JS.updateTexture in H.
    exec H; try discriminate H; injection H as <-; run_monad;
      rewrite ?Z.eqb_refl, ?orb_true_r; cbn [negb orb];
      repeat split; try reflexivity; try assumption;
      try (rewrite Hstale, orb_true_r; reflexivity); settle Hstale.
Qed.

Lemma js_unparsed_members w :
  JS.live w = true -> JS.parses w = false -> stale w = true ->
  (forall r box, returned (JS._render r box w) = false)
  /\ (forall r box, returned (JS._renderCanvas r box w) = false)
  /\ (forall box, returned (JS.get_width box w) = false)
  /\ (forall box, returned (JS.get_height box w) = false)
  /\ (forall value box, returned (JS.set_width value box w) = false)
  /\ (forall value box, returned (JS.set_height value box w) = false).
Proof.
  intros Hlive Hparses Hstale. unfold JS.live, JS.parses, stale in *.
  repeat match goal with |- _ /\ _ => split end; intros.
  - destruct (JS._render r box w) as [? ?|?] eqn:H; [exfalso|reflexivity].
    unfold JS._render, follow_renderer, JS.updateText, JS.updateTexture in H.
    open_world w. run_monad. use_live Hlive. exec H; try discriminate H; settle Hstale.
  - destruct (JS._renderCanvas r box w) as [? ?|?] eqn:H; [exfalso|reflexivity].
    unfold JS._renderCanvas, follow_renderer, JS.updateText, JS.updateTexture in H.
    open_world w. run_monad. use_live Hlive. exec H; try discriminate H; settle Hstale.
  - destruct (JS.get_width box w) as [? ?|?] eqn:H; [exfalso|reflexivity].
    unfold JS.get_width, JS.updateText, JS.updateTexture in H.
    open_world w. run_monad. use_live Hlive. exec H; try discriminate H; settle Hstale.
  - destruct (JS.get_height box w) as [? ?|?] eqn:H; [exfalso|reflexivity].
    unfold JS.get_height, JS.updateText, JS.updateTexture in H.
    open_world w. run_monad. use_live Hlive. exec H; try discriminate H; settle Hstale.
  - destruct (JS.set_width value box w) as [? ?|?] eqn:H; [exfalso|reflexivity].
    unfold JS.set_width, JS.updateText, JS.updateTexture in H.
    open_world w. run_monad. use_live Hlive. exec H; try discriminate H; settle Hstale.
  - destruct (JS.set_height value box w) as [? ?|?] eqn:H; [exfalso|reflexivity].
    unfold JS.set_height, JS.updateText, JS.updateTexture in H.
    open_world w. run_monad. use_live Hlive. exec H; try discriminate H; settle Hstale.
Qed.

End WithHost.
End JSMore.

(* --------------------------------------------------------------------- *)
(** ** The life of an instance, [src/index.ts] *)
(* --------------------------------------------------------------------- *)

Module TSLife.
Section WithHost.
Context {pixi : Pixi}.

Ltac unfold_members H :=
  unfold TS.step, TS._render, TS._renderCanvas, TS.getLocalBounds,
    TS._calculateBounds, TS.get_width, TS.set_width, TS.get_height,
    TS.set_height, TS.destroy, TS.fire_load, TS.fire_error, TS.onload,
    TS.updateText, TS.updateTexture, set_text, set_style, mutate_style,
    set_resolution, _onStyleChange, follow_renderer in H.

Ltac untrimmed :=
  try match goal with
      | E : Trimmed.data (trimCanvas ?c) = Some _ |- _ =>
          rewrite (trimCanvas_transparent c eq_refl) in E; discriminate E
      end.

Ltac cleared :=
  repeat match goal with
         | Hx : ?v = null |- _ => is_var v; subst v
         end.

(** *** No member throws on a live instance *)



(** *** A destroyed instance stays destroyed *)

Ltac gone H :=
  match type of H with
  | _ \/ _ => destruct H as [H|H]
  end;
  match type of H with ?v = _ => subst v end.

Lemma ts_destroy_destroys w :
  TS.live w = true -> destroyed (world_of (TS.destroy w)).
Proof.
  intros Hlive. unfold destroyed.
  match goal with |- context [world_of ?call] => remember call as o eqn:H; symmetry in H end.
  unfold TS.live in *; unfold_members H; open_world w; run_monad;
    subst_flags; use_live Hlive; exec H; subst o; run_monad; auto.
Qed.

Lemma ts_destroyed_step a w :
  destroyed w -> destroyed (world_of (TS.step a w)).
Proof.
  unfold destroyed. intros (Hc & Hi & Hs).
  match goal with |- context [world_of ?call] => remember call as o eqn:H; symmetry in H end.
  destruct a; unfold_members H; open_world w; run_monad; subst_flags; cleared;
    gone Hs; exec H; subst o; run_monad; auto.
Qed.

Lemma ts_destroyed_run actions : forall w,
  destroyed w -> destroyed (TS.run actions w).
Proof.
  induction actions as [|a rest IH]; intros w Hw; [exact Hw|].
  cbn [TS.run]. apply IH. now apply ts_destroyed_step.
Qed.

Ltac thrown call w Hs :=
  let H := fresh "H" in
  destruct call as [? ?|?] eqn:H; [exfalso|reflexivity];
  unfold_members H; open_world w; run_monad; subst_flags; cleared;
  gone Hs; exec H; discriminate H.

Lemma ts_destroyed_throws w :
  destroyed w ->
  TS.live w = false
  /\ (forall box respectDirty, returned (TS.updateText box respectDirty w) = false)
  /\ (forall r box, returned (TS._render r box w) = false)
  /\ (forall r box, returned (TS._renderCanvas r box w) = false)
  /\ (forall box, returned (TS.getLocalBounds box w) = false)
  /\ (forall box, returned (TS._calculateBounds box w) = false)
  /\ (forall box, returned (TS.get_width box w) = false)
  /\ (forall box, returned (TS.get_height box w) = false)
  /\ (forall value box, returned (TS.set_width value box w) = false)
  /\ (forall value box, returned (TS.set_height value box w) = false)
  /\ returned (TS.destroy w) = false.
Proof.
  unfold destroyed. intros (Hc & Hi & Hs).
  repeat match goal with |- _ /\ _ => split end; intros.
  - unfold TS.live. rewrite Hc, Hi. cbn [is_obj]. now rewrite ?andb_false_r.
  - thrown (TS.updateText box respectDirty w) w Hs.
  - thrown (TS._render r box w) w Hs.
  - thrown (TS._renderCanvas r box w) w Hs.
  - thrown (TS.getLocalBounds box w) w Hs.
  - thrown (TS._calculateBounds box w) w Hs.
  - thrown (TS.get_width box w) w Hs.
  - thrown (TS.get_height box w) w Hs.
  - thrown (TS.set_width value box w) w Hs.
  - thrown (TS.set_height value box w) w Hs.
  - thrown (TS.destroy w) w Hs.
Qed.

(** *** A style changed in place *)



(** *** Trimming when the decode completes *)

Lemma ts_decode_trims painted w style closure data :
  TS.live w = true ->
  HTMLText._style (this w) = Some style ->
  TextStyle.trim style = true ->
  Image.onload (imageEl w) = Some closure ->
  Trimmed.data (trimCanvas (Canvas.drawImage painted (canvasEl w))) = Some data ->
  let trimmed := trimCanvas (Canvas.drawImage painted (canvasEl w)) in
  exists w',
    TS.fire_load painted w = Returned tt w'
    /\ canvasEl w'
       = Canvas.mk (Canvas.unsigned_long 300 (Trimmed.width trimmed))
                   (Canvas.unsigned_long 150 (Trimmed.height trimmed)) (Some data)
    /\ Texture.trim (texture w')
       = Rectangle.mk (- 0) (- 0) (Number.of_Z (Canvas.width (canvasEl w')) / HTMLText._resolution (this w)) (Number.of_Z (Canvas.height (canvasEl w')) / HTMLText._resolution (this w))
    /\ Rectangle.width (Texture.orig (texture w')) = Number.of_Z (Canvas.width (canvasEl w')) / HTMLText._resolution (this w) - 0 * 2
    /\ Rectangle.height (Texture.orig (texture w')) = Number.of_Z (Canvas.height (canvasEl w')) / HTMLText._resolution (this w) - 0 * 2.
Proof.
  intros Hlive Hs Ht Hl Hd trimmed. subst trimmed.
  destruct (TS.fire_load painted w) as [[] w'|w'] eqn:H.
  - exists w'. split; [reflexivity|].
    unfold TS.fire_load, TS.onload, TS.updateTexture in H.
    unfold TS.live in Hlive. open_world w. run_monad.
    match type of Hs with ?v = _ => subst v end. use_live Hlive.
    rewrite Hl in H. run_monad. rewrite Ht in H. run_monad. rewrite Hd in H.
    exec H; injection H as <-; run_monad;
      rewrite ?setRealSize_trim, ?setRealSize_orig; repeat split; reflexivity.
  - exfalso.
    unfold TS.fire_load, TS.onload, TS.updateTexture in H.
    unfold TS.live in Hlive. open_world w. run_monad.
    match type of Hs with ?v = _ => subst v end. use_live Hlive.
    rewrite Hl in H. run_monad. rewrite Ht in H. run_monad. rewrite Hd in H.
    exec H; discriminate H.
Qed.

End WithHost.
End TSLife.

(* --------------------------------------------------------------------- *)
(** ** The life of an instance, [src/index.js] *)
(* --------------------------------------------------------------------- *)

Module JSLife.
Section WithHost.
Context {pixi : Pixi}.

Ltac unfold_members H :=
  unfold JS.step, JS._render, JS._renderCanvas, JS.getLocalBounds,
    JS._calculateBounds, JS.get_width, JS.set_width, JS.get_height,
    JS.set_height, JS.destroy, JS.fire_load, JS.fire_error, JS.onload,
    JS.updateText, JS.updateTexture, set_text, set_style, mutate_style,
    set_resolution, _onStyleChange, follow_renderer in H.

Ltac untrimmed :=
  try match goal with
      | E : Trimmed.data (trimCanvas ?c) = Some _ |- _ =>
          rewrite (trimCanvas_transparent c eq_refl) in E; discriminate E
      end.

Ltac cleared :=
  repeat match goal with
         | Hx : ?v = null |- _ => is_var v; subst v
         end.

(** *** No member throws on a live instance *)



(** *** A destroyed instance stays destroyed *)

Ltac gone H :=
  match type of H with
  | _ \/ _ => destruct H as [H|H]
  end;
  match type of H with ?v = _ => subst v end.

Lemma js_destroy_destroys w :
  JS.live w = true -> destroyed (world_of (JS.destroy w)).
Proof.
  intros Hlive. unfold destroyed.
  match goal with |- context [world_of ?call] => remember call as o eqn:H; symmetry in H end.
  unfold JS.live in *; unfold_members H; open_world w; run_monad;
    subst_flags; use_live Hlive; exec H; subst o; run_monad; auto.
Qed.

Lemma js_destroyed_step a w :
  destroyed w -> destroyed (world_of (JS.step a w)).
Proof.
  unfold destroyed. intros (Hc & Hi & Hs).
  match goal with |- context [world_of ?call] => remember call as o eqn:H; symmetry in H end.
  destruct a; unfold_members H; open_world w; run_monad; subst_flags; cleared;
    gone Hs; exec H; subst o; run_monad; auto.
Qed.

Lemma js_destroyed_run actions : forall w,
  destroyed w -> destroyed (JS.run actions w).
Proof.
  induction actions as [|a rest IH]; intros w Hw; [exact Hw|].
  cbn [JS.run]. apply IH. now apply js_destroyed_step.
Qed.

Ltac thrown call w Hs :=
  let H := fresh "H" in
  destruct call as [? ?|?] eqn:H; [exfalso|reflexivity];
  unfold_members H; open_world w; run_monad; subst_flags; cleared;
  gone Hs; exec H; discriminate H.

Lemma js_destroyed_throws w :
  destroyed w ->
  JS.live w = false
  /\ (forall box respectDirty, returned (JS.updateText box respectDirty w) = false)
  /\ (forall r box, returned (JS._render r box w) = false)
  /\ (forall r box, returned (JS._renderCanvas r box w) = false)
  /\ (forall box, returned (JS.getLocalBounds box w) = false)
  /\ (forall box, returned (JS._calculateBounds box w) = false)
  /\ (forall box, returned (JS.get_width box w) = false)
  /\ (forall box, returned (JS.get_height box w) = false)
  /\ (forall value box, returned (JS.set_width value box w) = false)
  /\ (forall value box, returned (JS.set_height value box w) = false)
  /\ returned (JS.destroy w) = false.
Proof.
  unfold destroyed. intros (Hc & Hi & Hs).
  repeat match goal with |- _ /\ _ => split end; intros.
  - unfold JS.live. rewrite Hc, Hi. cbn [is_obj]. now rewrite ?andb_false_r.
  - thrown (JS.updateText box respectDirty w) w Hs.
  - thrown (JS._render r box w) w Hs.
  - thrown (JS._renderCanvas r box w) w Hs.
  - thrown (JS.getLocalBounds box w) w Hs.
  - thrown (JS._calculateBounds box w) w Hs.
  - thrown (JS.get_width box w) w Hs.
  - thrown (JS.get_height box w) w Hs.
  - thrown (JS.set_width value box w) w Hs.
  - thrown (JS.set_height value box w) w Hs.
  - thrown (JS.destroy w) w Hs.
Qed.

(** *** A style changed in place *)



(** *** Trimming when the decode completes *)

Lemma js_decode_trims painted w style closure data :
  JS.live w = true ->
  HTMLText._style (this w) = Some style ->
  TextStyle.trim style = true ->
  Image.onload (imageEl w) = Some closure ->
  Trimmed.data (trimCanvas (Canvas.drawImage painted (canvasEl w))) = Some data ->
  let trimmed := trimCanvas (Canvas.drawImage painted (canvasEl w)) in
  exists w',
    JS.fire_load painted w = Returned tt w'
    /\ canvasEl w'
       = Canvas.mk (Canvas.unsigned_long 300 (Trimmed.width trimmed))
                   (Canvas.unsigned_long 150 (Trimmed.height trimmed)) (Some data)
    /\ Texture.trim (texture w')
       = Rectangle.mk (- 0) (- 0) (Math.ceil (Number.of_Z (Canvas.width (canvasEl w')) / HTMLText._resolution (this w))) (Math.ceil (Number.of_Z (Canvas.height (canvasEl w')) / HTMLText._resolution (this w)))
    /\ Rectangle.width (Texture.orig (texture w')) = Math.ceil (Number.of_Z (Canvas.width (canvasEl w')) / HTMLText._resolution (this w)) - 0 * 2
    /\ Rectangle.height (Texture.orig (texture w')) = Math.ceil (Number.of_Z (Canvas.height (canvasEl w')) / HTMLText._resolution (this w)) - 0 * 2.
Proof.
  intros Hlive Hs Ht Hl Hd trimmed. subst trimmed.
  destruct (JS.fire_load painted w) as [[] w'|w'] eqn:H.
  - exists w'. split; [reflexivity|].
    unfold JS.fire_load, JS.onload, JS.updateTexture in H.
    unfold JS.live in Hlive. open_world w. run_monad.
    match type of Hs with ?v = _ => subst v end. use_live Hlive.
    rewrite Hl in H. run_monad. rewrite Ht in H. run_monad. rewrite Hd in H.
    exec H; injection H as <-; run_monad;
      rewrite ?setRealSize_trim, ?setRealSize_orig; repeat split; reflexivity.
  - exfalso.
    unfold JS.fire_load, JS.onload, JS.updateTexture in H.
    unfold JS.live in Hlive. open_world w. run_monad.
    match type of Hs with ?v = _ => subst v end. use_live Hlive.
    rewrite Hl in H. run_monad. rewrite Ht in H. run_monad. rewrite Hd in H.
    exec H; discriminate H.
Qed.

End WithHost.
End JSLife.

(* ===================================================================== *)
(** ** The further properties *)
(* ===================================================================== *)

(** X1. [sanitiseText] is idempotent, and assigning the same value to
    [text] twice in a row is the same as assigning it once: the second
    assignment returns without changing anything. *)
Theorem X1_sanitising_twice_is_sanitising_once :
  (forall s : string,
      Text.sanitiseText (Text.sanitiseText s) = Text.sanitiseText s)
  /\ (forall (text : Value) (w : World),
        let w1 := world_of (set_text text w) in
        set_text text w1 = Returned tt w1).
Proof.
  split; [exact StoredText.sanitise_idempotent|].
  intros text w w1. subst w1. apply SetterFacts.set_text_unchanged.
  destruct (string_eq (HTMLText._text (this w)) (Text.sanitiseText (coerce text))) eqn:E.
  - rewrite (SetterFacts.set_text_unchanged text w E). exact E.
  - rewrite (SetterFacts.set_text_changed text w E). cbn.
    apply String.eqb_refl.
Qed.

(** X2. From the constructor on, whatever is called, the stored text is a
    string that is not empty and holds none of [<br>], [<hr>] and [&nbsp;]
    in any case; writing the text read from [text] back to [text] returns
    without changing anything. *)
Theorem X2_stored_text_is_sanitized {pixi : Pixi} :
  forall text style base frame sprite0 RESOLUTION (actions : list Action),
    (let w := TS.run actions (TS.construct text style base frame sprite0 RESOLUTION) in
     exists t, get_text w = Returned (Some t) w
               /\ sanitized t = true
               /\ set_text (VString t) w = Returned tt w)
    /\
    (let w := JS.run actions (JS.construct text style base frame sprite0 RESOLUTION) in
     exists t, get_text w = Returned (Some t) w
               /\ sanitized t = true
               /\ set_text (VString t) w = Returned tt w).
Proof.
  intros text style base frame sprite0 RESOLUTION actions.
  assert (Hback : forall w, holds_sanitized_text w = true ->
            exists t, get_text w = Returned (Some t) w
                      /\ sanitized t = true
                      /\ set_text (VString t) w = Returned tt w).
  { intros w Hw. unfold holds_sanitized_text in Hw.
    destruct (HTMLText._text (this w)) as [t|] eqn:Ht; [|discriminate Hw].
    exists t. split; [unfold get_text, field; now rewrite Ht|]. split; [exact Hw|].
    apply SetterFacts.set_text_unchanged.
    rewrite Ht, (StoredText.sanitized_is_fixed t Hw). apply String.eqb_refl. }
  split; cbv zeta; apply Hback.
  - apply TSMore.ts_sanitized_run.
    destruct (TSMore.ts_constructed text style base frame sprite0 RESOLUTION)
      as (_ & _ & _ & _ & _ & _ & Ht & _).
    unfold holds_sanitized_text. rewrite Ht. apply StoredText.setter_text_is_sanitized.
  - apply JSMore.js_sanitized_run.
    destruct (JSMore.js_constructed text style base frame sprite0 RESOLUTION)
      as (_ & _ & _ & _ & _ & _ & Ht & _).
    unfold holds_sanitized_text. rewrite Ht. apply StoredText.setter_text_is_sanitized.
Qed.






(** X6. From the constructor on, whatever is called: in index.ts the
    texture has been updated once per completed decode; in index.js once
    per requested decode and once more per completed decode. *)
Theorem X6_texture_updates_per_decode {pixi : Pixi} :
  forall text style base frame sprite0 RESOLUTION (actions : list Action),
    (let w := TS.run actions (TS.construct text style base frame sprite0 RESOLUTION) in
     texture_updates w = decodes_completed w)
    /\
    (let w := JS.run actions (JS.construct text style base frame sprite0 RESOLUTION) in
     texture_updates w = (decodes_requested w + decodes_completed w)%nat).
Proof.
  intros text style base frame sprite0 RESOLUTION actions. split; cbv zeta.
  - apply (TSMore.ts_accounted_run actions), TSMore.ts_accounted_construct.
  - apply (JSMore.js_accounted_run actions), JSMore.js_accounted_construct.
Qed.



(** X9. [destroy] on a live instance returns, having shrunk the canvas
    element to 0 x 0 and left [_text] and [_loading] as they were; on the
    destroyed instance [updateText], the [width] and [height] accessors and
    a second [destroy] all throw, and the throwing members change
    nothing. *)
Theorem X9_members_throw_after_destroy {pixi : Pixi} :
  forall w : World,
    (TS.live w = true ->
     exists w',
       TS.destroy w = Returned tt w'
       /\ canvasEl w' = Canvas.mk 0 0 None
       /\ HTMLText._text (this w') = HTMLText._text (this w)
       /\ HTMLText._loading (this w') = HTMLText._loading (this w)
       /\ (forall box respectDirty, TS.updateText box respectDirty w' = Thrown w')
       /\ (forall box, TS.get_width box w' = Thrown w')
       /\ (forall box, TS.get_height box w' = Thrown w')
       /\ (forall value box, TS.set_width value box w' = Thrown w')
       /\ (forall value box, TS.set_height value box w' = Thrown w')
       /\ returned (TS.destroy w') = false)
    /\
    (JS.live w = true ->
     exists w',
       JS.destroy w = Returned tt w'
       /\ canvasEl w' = Canvas.mk 0 0 None
       /\ HTMLText._text (this w') = HTMLText._text (this w)
       /\ HTMLText._loading (this w') = HTMLText._loading (this w)
       /\ (forall box respectDirty, JS.updateText box respectDirty w' = Thrown w')
       /\ (forall box, JS.get_width box w' = Thrown w')
       /\ (forall box, JS.get_height box w' = Thrown w')
       /\ (forall value box, JS.set_width value box w' = Thrown w')
       /\ (forall value box, JS.set_height value box w' = Thrown w')
       /\ returned (JS.destroy w') = false).
Proof.
  intros w. split; intros Hlive.
  - exact (TSMore.ts_use_after_destroy w Hlive).
  - exact (JSMore.js_use_after_destroy w Hlive).
Qed.

(** The example instance of index.ts is destroyed while its decode is
    pending. *)
Lemma X9_witness :
  exists w',
    TS.destroy ts_decoding = Returned tt w'
    /\ HTMLText._loading (this w') = true
    /\ TS.get_width example_box w' = Thrown w'
    /\ returned (TS.destroy w') = false.
Proof.
  assert (Hl : TS.live ts_decoding = true) by evaluated.
  destruct (proj1 (X9_members_throw_after_destroy (pixi := example_pixi) ts_decoding) Hl)
    as (w' & Hd & _ & _ & Hloading & _ & Hw & _ & _ & _ & Hagain).
  exists w'. split; [exact Hd|]. split; [rewrite Hloading; evaluated|].
  split; [apply Hw | exact Hagain].
Defined.

(** X10. A load event delivered to a live instance whose image holds the
    handler, the style being the one the pass has seen, returns and settles
    the instance: the handler and the source of the image are cleared,
    nothing is stale, a second load event, a render tick at a resolution
    [===] that of the instance and a read of [width] all return without
    changing anything. *)
Theorem X10_completed_decode_settles_the_instance {pixi : Pixi} :
  forall (painted : option ImageData.t) (w : World) (closure : Closure.t)
         (style : TextStyle.t),
    Image.onload (imageEl w) = Some closure ->
    HTMLText._style (this w) = Some style ->
    HTMLText.localStyleID (this w) = TextStyle.styleID style ->
    (TS.live w = true ->
     exists w',
       TS.fire_load painted w = Returned tt w'
       /\ Image.onload (imageEl w') = None
       /\ Image.src (imageEl w') = None
       /\ stale w' = false
       /\ (forall again, TS.fire_load again w' = Returned tt w')
       /\ (forall r box,
              strict_eq (HTMLText._resolution (this w)) r = true ->
              TS._render r box w' = Returned tt w')
       /\ (forall box, exists v, TS.get_width box w' = Returned v w'))
    /\
    (JS.live w = true ->
     exists w',
       JS.fire_load painted w = Returned tt w'
       /\ Image.onload (imageEl w') = None
       /\ Image.src (imageEl w') = None
       /\ stale w' = false
       /\ (forall again, JS.fire_load again w' = Returned tt w')
       /\ (forall r box,
              strict_eq (HTMLText._resolution (this w)) r = true ->
              JS._render r box w' = Returned tt w')
       /\ (forall box, exists v, JS.get_width box w' = Returned v w')).
Proof.
  intros painted w closure style Hload Hstyle Hid. split; intros Hlive.
  - destruct (TSMore.ts_decode_settles painted w closure style Hlive Hload Hstyle Hid)
      as (w' & Hfire & Hlive' & Hrest & Hres & Hnone & Hsrc).
    exists w'. repeat (split; [assumption|]). split; [|split].
    + intros again. unfold TS.fire_load, bind, current. rewrite Hnone. reflexivity.
    + intros r box Hsame. apply TSMore.ts_render_at_rest; try assumption.
      rewrite Hres. exact Hsame.
    + intros box. now apply TSFacts.ts_get_width_clean.
  - destruct (JSMore.js_decode_settles painted w closure style Hlive Hload Hstyle Hid)
      as (w' & Hfire & Hlive' & Hrest & Hres & Hnone & Hsrc).
    exists w'. repeat (split; [assumption|]). split; [|split].
    + intros again. unfold JS.fire_load, bind, current. rewrite Hnone. reflexivity.
    + intros r box Hsame. apply JSMore.js_render_at_rest; try assumption.
      rewrite Hres. exact Hsame.
    + intros box. now apply JSFacts.js_get_width_clean.
Qed.

(** The pending decode of the example instance of index.ts completes. *)
Lemma X10_witness :
  exists w',
    TS.fire_load (Some (ImageData.mk 38 30)) ts_decoding = Returned tt w'
    /\ stale w' = false
    /\ TS._render 2 example_box w' = Returned tt w'.
Proof.
  assert (Hload : Image.onload (imageEl ts_decoding) = Some (Closure.mk 2 11 7))
    by evaluated.
  assert (Hstyle : HTMLText._style (this ts_decoding) = Some example_style)
    by evaluated.
  assert (Hid : HTMLText.localStyleID (this ts_decoding) = TextStyle.styleID example_style)
    by evaluated.
  assert (Hl : TS.live ts_decoding = true) by evaluated.
  assert (Hres : HTMLText._resolution (this ts_decoding) = 2) by evaluated.
  destruct (proj1 (X10_completed_decode_settles_the_instance (pixi := example_pixi)
                     (Some (ImageData.mk 38 30)) ts_decoding _ _ Hload Hstyle Hid) Hl)
    as (w' & Hfire & _ & _ & Hrest & _ & Hrender & _).
  exists w'. split; [exact Hfire|]. split; [exact Hrest|].
  apply Hrender. rewrite Hres. evaluated.
Defined.







(** X14. [destroy] is final: whatever is called on the instance
    afterwards, a new text or a new style included, it is never live again,
    and [updateText], [_render], [_renderCanvas], [getLocalBounds],
    [_calculateBounds], the [width] and [height] accessors and [destroy]
    throw. *)
Theorem X14_destroy_is_final {pixi : Pixi} :
  forall (w : World) (actions : list Action),
    (TS.live w = true ->
     let w' := TS.run actions (world_of (TS.destroy w)) in
     TS.live w' = false
     /\ (forall box respectDirty, returned (TS.updateText box respectDirty w') = false)
     /\ (forall r box, returned (TS._render r box w') = false)
     /\ (forall r box, returned (TS._renderCanvas r box w') = false)
     /\ (forall box, returned (TS.getLocalBounds box w') = false)
     /\ (forall box, returned (TS._calculateBounds box w') = false)
     /\ (forall box, returned (TS.get_width box w') = false)
     /\ (forall box, returned (TS.get_height box w') = false)
     /\ (forall value box, returned (TS.set_width value box w') = false)
     /\ (forall value box, returned (TS.set_height value box w') = false)
     /\ returned (TS.destroy w') = false)
    /\
    (JS.live w = true ->
     let w' := JS.run actions (world_of (JS.destroy w)) in
     JS.live w' = false
     /\ (forall box respectDirty, returned (JS.updateText box respectDirty w') = false)
     /\ (forall r box, returned (JS._render r box w') = false)
     /\ (forall r box, returned (JS._renderCanvas r box w') = false)
     /\ (forall box, returned (JS.getLocalBounds box w') = false)
     /\ (forall box, returned (JS._calculateBounds box w') = false)
     /\ (forall box, returned (JS.get_width box w') = false)
     /\ (forall box, returned (JS.get_height box w') = false)
     /\ (forall value box, returned (JS.set_width value box w') = false)
     /\ (forall value box, returned (JS.set_height value box w') = false)
     /\ returned (JS.destroy w') = false).
Proof.
  intros w actions. split; intros Hlive; cbv zeta.
  - apply TSLife.ts_destroyed_throws, TSLife.ts_destroyed_run,
      TSLife.ts_destroy_destroys, Hlive.
  - apply JSLife.js_destroyed_throws, JSLife.js_destroyed_run,
      JSLife.js_destroy_destroys, Hlive.
Qed.

(** The example instance of index.js is destroyed while its decode is
    pending, then given a style and a text. *)
Lemma X14_witness :
  returned
    (JS.get_width example_box
       (JS.run [SetStyle example_style; SetText (VString "again"); Load None]
          (world_of (JS.destroy js_decoding))))
  = false.
Proof.
  assert (Hl : JS.live js_decoding = true) by evaluated.
  destruct (proj2 (X14_destroy_is_final (pixi := example_pixi) js_decoding
                     [SetStyle example_style; SetText (VString "again"); Load None]) Hl)
    as (_ & _ & _ & _ & _ & _ & Hwidth & _).
  exact (Hwidth example_box).
Defined.



(** X16. When the style asks for trimming and [trimCanvas] finds pixels in
    what the decoded image has drawn on the canvas, the completed decode
    leaves the canvas holding the trimmed pixels at the trimmed size, as
    the DOM keeps it, whatever size the pass had given it; [trim] starts at
    [-0] and has that size divided by the resolution (ceiled in index.js),
    and [orig] has the size of [trim] less [0 * 2], the padding being
    dropped. *)
Theorem X16_completed_decode_trims_the_canvas {pixi : Pixi} :
  forall (painted : option ImageData.t) (w : World) (style : TextStyle.t)
         (closure : Closure.t) (data : ImageData.t),
    HTMLText._style (this w) = Some style ->
    TextStyle.trim style = true ->
    Image.onload (imageEl w) = Some closure ->
    Trimmed.data (trimCanvas (Canvas.drawImage painted (canvasEl w))) = Some data ->
    let trimmed := trimCanvas (Canvas.drawImage painted (canvasEl w)) in
    let resolution := HTMLText._resolution (this w) in
    (TS.live w = true ->
     exists w',
       TS.fire_load painted w = Returned tt w'
       /\ canvasEl w'
          = Canvas.mk (Canvas.unsigned_long 300 (Trimmed.width trimmed))
                      (Canvas.unsigned_long 150 (Trimmed.height trimmed)) (Some data)
       /\ Texture.trim (texture w')
          = Rectangle.mk (- 0) (- 0)
              (Number.of_Z (Canvas.width (canvasEl w')) / resolution)
              (Number.of_Z (Canvas.height (canvasEl w')) / resolution)
       /\ Rectangle.width (Texture.orig (texture w'))
          = Rectangle.width (Texture.trim (texture w')) - 0 * 2
       /\ Rectangle.height (Texture.orig (texture w'))
          = Rectangle.height (Texture.trim (texture w')) - 0 * 2)
    /\
    (JS.live w = true ->
     exists w',
       JS.fire_load painted w = Returned tt w'
       /\ canvasEl w'
          = Canvas.mk (Canvas.unsigned_long 300 (Trimmed.width trimmed))
                      (Canvas.unsigned_long 150 (Trimmed.height trimmed)) (Some data)
       /\ Texture.trim (texture w')
          = Rectangle.mk (- 0) (- 0)
              (Math.ceil (Number.of_Z (Canvas.width (canvasEl w')) / resolution))
              (Math.ceil (Number.of_Z (Canvas.height (canvasEl w')) / resolution))
       /\ Rectangle.width (Texture.orig (texture w'))
          = Rectangle.width (Texture.trim (texture w')) - 0 * 2
       /\ Rectangle.height (Texture.orig (texture w'))
          = Rectangle.height (Texture.trim (texture w')) - 0 * 2).
Proof.
  intros painted w style closure data Hs Ht Hl Hd trimmed resolution.
  subst trimmed resolution. split; intros Hlive.
  - destruct (TSLife.ts_decode_trims painted w style closure data Hlive Hs Ht Hl Hd)
      as (w' & Hfire & Hc & Htrim & How & Hoh).
    exists w'. split; [exact Hfire|]. split; [exact Hc|]. split; [exact Htrim|].
    rewrite Htrim, How, Hoh. split; reflexivity.
  - destruct (JSLife.js_decode_trims painted w style closure data Hlive Hs Ht Hl Hd)
      as (w' & Hfire & Hc & Htrim & How & Hoh).
    exists w'. split; [exact Hfire|]. split; [exact Hc|]. split; [exact Htrim|].
    rewrite Htrim, How, Hoh. split; reflexivity.
Qed.

(** The first pass of the trimming instances sized the canvas 38 by 30 and
    37 by 30; the decoded image holds pixels 21 by 10. *)
Lemma X16_witness :
  (exists w',
      TS.fire_load (Some (ImageData.mk 21 10)) ts_trimming = Returned tt w'
      /\ canvasEl w' = Canvas.mk 21 10 (Some (ImageData.mk 21 10))
      /\ Rectangle.width (Texture.trim (texture w')) = 10.5)
  /\ (exists w',
         JS.fire_load (Some (ImageData.mk 21 10)) js_trimming = Returned tt w'
         /\ canvasEl w' = Canvas.mk 21 10 (Some (ImageData.mk 21 10))
         /\ Rectangle.width (Texture.trim (texture w')) = 11).
Proof.
  split.
  - assert (Hs : HTMLText._style (this ts_trimming) = Some trimming_style) by evaluated.
    assert (Ht : TextStyle.trim trimming_style = true) by reflexivity.
    assert (Hl : Image.onload (imageEl ts_trimming) = Some (Closure.mk 2 11 7))
      by evaluated.
    assert (Hd : Trimmed.data
                   (trimCanvas (Canvas.drawImage (Some (ImageData.mk 21 10))
                                  (canvasEl ts_trimming)))
                 = Some (ImageData.mk 21 10)) by evaluated.
    assert (Hlive : TS.live ts_trimming = true) by evaluated.
    destruct (proj1 (X16_completed_decode_trims_the_canvas (pixi := example_pixi)
                       _ ts_trimming _ _ _ Hs Ht Hl Hd) Hlive)
      as (w' & Hfire & Hc & Htrim & _).
    exists w'. split; [exact Hfire|].
    split; [rewrite Hc; evaluated | rewrite Htrim, Hc; evaluated].
  - assert (Hs : HTMLText._style (this js_trimming) = Some trimming_style) by evaluated.
    assert (Ht : TextStyle.trim trimming_style = true) by reflexivity.
    assert (Hl : exists c, Image.onload (imageEl js_trimming) = Some c)
      by (eexists; evaluated).
    destruct Hl as (c & Hl).
    assert (Hd : Trimmed.data
                   (trimCanvas (Canvas.drawImage (Some (ImageData.mk 21 10))
                                  (canvasEl js_trimming)))
                 = Some (ImageData.mk 21 10)) by evaluated.
    assert (Hlive : JS.live js_trimming = true) by evaluated.
    destruct (proj2 (X16_completed_decode_trims_the_canvas (pixi := example_pixi)
                       _ js_trimming _ _ _ Hs Ht Hl Hd) Hlive)
      as (w' & Hfire & Hc & Htrim & _).
    exists w'. split; [exact Hfire|].
    split; [rewrite Hc; evaluated | rewrite Htrim, Hc; evaluated].
Defined.

(** X17. In index.js a text the XML parser rejects (the document has no
    [div]) makes every refreshing member of a live, stale instance throw
    at [appendChild]: [updateText], whatever its argument, throws leaving
    nothing measured, requested, resized or drawn, the instance still live
    and stale, and so does every later attempt; [_render],
    [_renderCanvas] and the [width] and [height] accessors throw as
    well. *)
Theorem X17_rejected_text_throws_in_index_js {pixi : Pixi} :
  forall (w : World),
    JS.live w = true -> JS.parses w = false -> stale w = true ->
    (forall box respectDirty,
        exists w',
          JS.updateText box respectDirty w = Thrown w'
          /\ log w' = log w
          /\ canvasEl w' = canvasEl w
          /\ imageEl w' = imageEl w
          /\ texture w' = texture w
          /\ HTMLText.dirty (this w') = true
          /\ forall box' respectDirty',
               returned (JS.updateText box' respectDirty' w') = false)
    /\ (forall r box, returned (JS._render r box w) = false)
    /\ (forall r box, returned (JS._renderCanvas r box w) = false)
    /\ (forall box, returned (JS.get_width box w) = false)
    /\ (forall box, returned (JS.get_height box w) = false)
    /\ (forall value box, returned (JS.set_width value box w) = false)
    /\ (forall value box, returned (JS.set_height value box w) = false).
Proof.
  intros w Hlive Hparses Hstale. split.
  - intros box respectDirty.
    destruct (JSMore.js_unparsed_pass box respectDirty w Hlive Hparses Hstale)
      as (w' & Hcall & Hlive' & Hparses' & Hstale' & Hdirty & Hlog & Hc & Hi & Ht & _).
    exists w'. repeat (split; [assumption|]).
    intros box' respectDirty'.
    destruct (JSMore.js_unparsed_pass box' respectDirty' w' Hlive' Hparses' Hstale')
      as (w'' & -> & _). reflexivity.
  - exact (JSMore.js_unparsed_members w Hlive Hparses Hstale).
Qed.

(** The example instance of index.js is given the text [a & b]. *)
Lemma X17_witness :
  returned (JS.get_width example_box (world_of (set_text (VString "a & b") js_fresh)))
  = false
  /\ exists w',
       JS.updateText example_box true (world_of (set_text (VString "a & b") js_fresh))
       = Thrown w'
       /\ measurements w' = 0%nat.
Proof.
  assert (Hl : JS.live (world_of (set_text (VString "a & b") js_fresh)) = true)
    by evaluated.
  assert (Hp : JS.parses (world_of (set_text (VString "a & b") js_fresh)) = false)
    by evaluated.
  assert (Hs : stale (world_of (set_text (VString "a & b") js_fresh)) = true)
    by evaluated.
  destruct (X17_rejected_text_throws_in_index_js (pixi := example_pixi) _ Hl Hp Hs)
    as (Hpass & _ & _ & Hwidth & _).
  split; [exact (Hwidth example_box)|].
  destruct (Hpass example_box true) as (w' & Hcall & Hlog & _).
  exists w'. split; [exact Hcall|]. unfold measurements. rewrite Hlog. evaluated.
Defined.
